(** * DBSim front end: the 3D brain scene and the field/tissue plot

  A shallow embedding of the two visualisation components of the
  repository:

  - [ThreeBrain]: the Three.js component [ThreeBrainVisualization]
    (second file of [frontend/src/App.jsx]): the electrode position
    mapper [calculateElectrodePosition], the hand-written orbit
    controls ([onMouseMove], [onMouseDown], [onMouseUp], [onWheel],
    [updateRotation]) and the animation loop [animate];
  - [Plot]: the Plotly component
    [frontend/src/components/BrainVisualization.jsx]: the three trace
    builders and [renderVisualization].

  Numbers.  A JavaScript number is a binary64 float.  Here a finite
  number is an exact rational of [Q]: sums and products are not rounded
  and there is one zero.  The values that are not finite are kept where
  the code can meet them: [NaN] and [undefined] in the stimulation
  parameters (both falsy for [||]), and [-Infinity] as the value of
  [Math.max()] on no argument.  The theorems about positions and
  rotations are stated as order facts or with a margin, so that they do
  not rest on sums being exact. *)

From Stdlib Require Import QArith Qminmax Lqa Lia ZArith.
From Stdlib Require Import List String Bool DecimalString.
Import ListNotations.
Open Scope Q_scope.

(* ================================================================== *)
(** * JavaScript values used by the components *)
(* ================================================================== *)

Module JS.

(** What a numeric property of a props object can hold: the property is
    missing ([undefined]), or it is a number, which is [NaN] (the result
    of [parseInt]/[parseFloat] on a string that is no number) or
    finite. *)
Inductive value : Type :=
| Undefined
| NaN
| Num (q : Q).

(** [ToBoolean]: [undefined], [NaN] and zero are falsy. *)
Definition truthy (v : value) : bool :=
  match v with
  | Undefined => false
  | NaN => false
  | Num q => negb (Qeq_bool q 0)
  end.

(** [v || d] with a finite number literal [d] on the right: the result
    is always a finite number. *)
Definition or_default (v : value) (d : Q) : Q :=
  match v with
  | Num q => if Qeq_bool q 0 then d else q
  | _ => d
  end.

(** The value of [Math.max] on finite numbers. *)
Inductive extended : Type :=
| NegInfinity
| Finite (q : Q).

(** A call [f(...xs)] passes every element of [xs] as an argument.  An
    engine takes only so many arguments: the bound depends on the engine
    and on the room left on its stack, and is left open as
    [argumentLimit].  Beyond it the call throws a [RangeError] before [f]
    runs. *)
Definition spreadFits {A : Type} (argumentLimit : N) (xs : list A) : bool :=
  (N.of_nat (List.length xs) <=? argumentLimit)%N.

(** The value of [Math.max] on the arguments it was given: [-Infinity] on
    no argument, else the largest.  Whether a call [Math.max(...xs)] gets
    that far is [spreadFits]. *)
Fixpoint Math_max (xs : list Q) : extended :=
  match xs with
  | [] => NegInfinity
  | x :: rest =>
      match Math_max rest with
      | NegInfinity => Finite x
      | Finite m => Finite (Qmax x m)
      end
  end.

(** [e === 0] *)
Definition is_zero (e : extended) : bool :=
  match e with
  | NegInfinity => false
  | Finite q => Qeq_bool q 0
  end.

(** [Array.prototype.flat(3)] on an array nested three deep. *)
Definition flat3 {A : Type} (t : list (list (list A))) : list A :=
  List.concat (List.concat t).

(** [xs[i]]: out of range is [undefined]. *)
Definition index {A : Type} (xs : list A) (i : nat) : option A :=
  nth_error xs i.

End JS.

(* ================================================================== *)
(** * The Three.js scene: [ThreeBrainVisualization] *)
(* ================================================================== *)

Module ThreeBrain.
Import JS.

(** ** Data *)

(** The [parameters] prop (the [parameters] object of [App]). *)
Record Params : Type := mkParams {
  contact : value;
  frequency : value;
  amplitude : value;
  condition : string;
  pulse_width : value
}.

(** [{ x, y, z }]: a position, and the three angles of a rotation. *)
Record Position : Type := mkPosition { x : Q; y : Q; z : Q }.

(** Numeric equality of positions (the three coordinates as numbers). *)
Definition pos_equiv (p q : Position) : Prop :=
  x p == x q /\ y p == y q /\ z p == z q.

(** An [Object3D] as far as the component touches it. *)
Record Object3D : Type := mkObject3D {
  rotation : Position;
  position : Position
}.

(** The group built by [createDBSElectrode]: its position and, for the
    four contacts, whether each is drawn active. *)
Record ElectrodeGroup : Type := mkElectrodeGroup {
  eg_position : Position;
  eg_active : list bool
}.

(** Children of the scene.  The brain group is one object shared with
    [brainRef]: the scene holds the node, [brainRef] the object. *)
Inductive Node : Type :=
| AmbientLight
| DirectionalLight
| BrainGroup
| Electrode (g : ElectrodeGroup).

(** The renderer: its size, whether its canvas carries the four listeners
    of [addOrbitControls], and whether [renderer.updateRotation] is
    set. *)
Record Renderer : Type := mkRenderer {
  size : Q * Q;
  listeners : bool;
  has_updateRotation : bool
}.

(** The camera: [camera.position] (the projection is not modelled). *)
Record Camera : Type := mkCamera {
  cam_position : Position
}.

(** The variables closed over by the handlers of [addOrbitControls]. *)
Record Controls : Type := mkControls {
  isMouseDown : bool;
  mouseX : Q;
  mouseY : Q;
  targetRotationX : Q;
  targetRotationY : Q;
  rotationX : Q;
  rotationY : Q
}.

(** What one [renderer.render(scene, camera)] draws. *)
Record Frame : Type := mkFrame {
  fr_children : list Node;
  fr_brain : option Object3D;
  fr_camera : Camera
}.

(** The component instance: refs, React state, the controls closure and
    the frames drawn so far (latest first). *)
Record Component : Type := mkComponent {
  mountRef : option (Q * Q);
  sceneRef : option (list Node);
  rendererRef : option Renderer;
  cameraRef : option Camera;
  brainRef : option Object3D;
  electrodesRef : list ElectrodeGroup;
  animationFrameRef : option nat;
  isInitialized : bool;
  electrodePosition : Position;
  controls : Controls;
  frames : list Frame
}.

Record MouseEvent : Type := mkMouseEvent { clientX : Q; clientY : Q }.
Record WheelEvent : Type := mkWheelEvent { deltaY : Q }.

(** ** The electrode position mapper *)

(** The [switch (contact)] of [calculateElectrodePosition]: the anchor
    of a contact, the [default] branch for any other number. *)
Definition contactAnchor (contact : Q) : Position :=
  if Qeq_bool contact 0 then mkPosition (-0.8) (-0.3) 0.2
  else if Qeq_bool contact 1 then mkPosition (-0.6) (-0.1) 0.3
  else if Qeq_bool contact 2 then mkPosition (-0.4) 0.1 0.4
  else if Qeq_bool contact 3 then mkPosition (-0.2) 0.3 0.5
  else mkPosition (-0.6) 0 0.3.

Definition calculateElectrodePosition (params : Params) : Position :=
  let contact := or_default (contact params) 0 in
  let frequency := or_default (frequency params) 130 in
  let amplitude := or_default (amplitude params) 2.0 in
  let a := contactAnchor contact in
  mkPosition (x a + (frequency - 130) * 0.001)
             (y a + (amplitude - 2.0) * 0.05)
             (z a).

(** ** Orbit controls: the handlers of [addOrbitControls] *)

(** The closure variables as [addOrbitControls] declares them. *)
Definition initialControls : Controls :=
  mkControls false 0 0 0 0 0 0.

Definition onMouseMove (c : Controls) (event : MouseEvent) : Controls :=
  if negb (isMouseDown c) then c
  else
    let deltaX := clientX event - mouseX c in
    let deltaY := clientY event - mouseY c in
    mkControls (isMouseDown c)
               (clientX event)
               (clientY event)
               (targetRotationX c + deltaY * 0.01)
               (targetRotationY c + deltaX * 0.01)
               (rotationX c)
               (rotationY c).

Definition onMouseDown (c : Controls) (event : MouseEvent) : Controls :=
  mkControls true (clientX event) (clientY event)
             (targetRotationX c) (targetRotationY c)
             (rotationX c) (rotationY c).

Definition onMouseUp (c : Controls) : Controls :=
  mkControls false (mouseX c) (mouseY c)
             (targetRotationX c) (targetRotationY c)
             (rotationX c) (rotationY c).

(** [Math.max(2, Math.min(10, z))] *)
Definition clampZoom (z : Q) : Q := Qmax 2 (Qmin 10 z).

Definition onWheel (camera : Camera) (event : WheelEvent) : Camera :=
  let p := cam_position camera in
  let z1 := z p + deltaY event * 0.01 in
  mkCamera (mkPosition (x p) (y p) (clampZoom z1)).

(** The two assignments to the closure variables in [updateRotation]. *)
Definition smoothControls (c : Controls) : Controls :=
  mkControls (isMouseDown c) (mouseX c) (mouseY c)
             (targetRotationX c) (targetRotationY c)
             (rotationX c + (targetRotationX c - rotationX c) * 0.1)
             (rotationY c + (targetRotationY c - rotationY c) * 0.1).

(** [brain.rotation.x = rx; brain.rotation.y = ry] *)
Definition setRotationXY (o : Object3D) (rx ry : Q) : Object3D :=
  mkObject3D (mkPosition rx ry (z (rotation o))) (position o).

Definition updateRotation (st : Component) : Component :=
  let c := smoothControls (controls st) in
  let brain :=
    match brainRef st with
    | Some o => Some (setRotationXY o (rotationX c) (rotationY c))
    | None => None
    end in
  mkComponent (mountRef st) (sceneRef st) (rendererRef st) (cameraRef st)
              brain (electrodesRef st) (animationFrameRef st)
              (isInitialized st) (electrodePosition st) c (frames st).

(** ** The animation loop *)

(** [requestAnimationFrame] hands out increasing handles. *)
Definition requestAnimationFrame (previous : option nat) : nat :=
  match previous with
  | Some n => S n
  | None => 1%nat
  end.

Definition animate (st : Component) : Component :=
  match rendererRef st, sceneRef st, cameraRef st with
  | Some renderer, Some scene, Some camera =>
      let st1 := if has_updateRotation renderer then updateRotation st
                 else st in
      let frame := mkFrame scene (brainRef st1) camera in
      mkComponent (mountRef st1) (sceneRef st1) (rendererRef st1)
                  (cameraRef st1) (brainRef st1) (electrodesRef st1)
                  (Some (requestAnimationFrame (animationFrameRef st1)))
                  (isInitialized st1) (electrodePosition st1)
                  (controls st1) (frame :: frames st1)
  | _, _, _ => st
  end.

(** ** Scene set-up and electrodes *)

(** [createBrainModel]: the brain group, at rest. *)
Definition newBrainGroup : Object3D :=
  mkObject3D (mkPosition 0 0 0) (mkPosition 0 0 0).

Definition initializeScene (st : Component) : Component :=
  match mountRef st with
  | None => st
  | Some (width, height) =>
      if isInitialized st then st
      else
        let camera := mkCamera (mkPosition 0 0 5) in
        let renderer := mkRenderer (width, height) true true in
        mkComponent (mountRef st)
                    (Some [AmbientLight; DirectionalLight; BrainGroup])
                    (Some renderer) (Some camera) (Some newBrainGroup)
                    (electrodesRef st) (animationFrameRef st)
                    true (electrodePosition st) initialControls (frames st)
  end.

(** [i === (parameters?.contact || 0)] for the four contacts. *)
Definition activeFlags (parameters : option Params) : list bool :=
  let c := match parameters with
           | Some p => or_default (contact p) 0
           | None => 0
           end in
  map (fun i : nat => Qeq_bool (inject_Z (Z.of_nat i)) c)
      [0; 1; 2; 3]%nat.

Definition isElectrode (n : Node) : bool :=
  match n with
  | Electrode _ => true
  | _ => false
  end.

(** [createElectrodes].  The electrodes of [electrodesRef] are the only
    [Electrode] children of the scene, so removing each of them from the
    scene removes every [Electrode] child.  The new group is the one of
    [createDBSElectrode], moved to the mapped position. *)
Definition createElectrodes (parameters : option Params) (st : Component)
  : Component :=
  match sceneRef st, parameters with
  | Some scene, Some params =>
      let cleared := filter (fun n => negb (isElectrode n)) scene in
      let pos := calculateElectrodePosition params in
      let electrodeGroup := mkElectrodeGroup pos (activeFlags parameters) in
      mkComponent (mountRef st)
                  (Some (cleared ++ [Electrode electrodeGroup]))
                  (rendererRef st) (cameraRef st) (brainRef st)
                  [electrodeGroup] (animationFrameRef st)
                  (isInitialized st) pos (controls st) (frames st)
  | _, _ => st
  end.

(** ** The component as a machine driven by the browser *)

Inductive Event : Type :=
| Mount
| MouseMove (e : MouseEvent)
| MouseDown (e : MouseEvent)
| MouseUp
| Wheel (e : WheelEvent)
| AnimationFrame
| GsapTick (ry py : Q)
| ParametersChange (p : option Params).

Definition withControls (st : Component) (c : Controls) : Component :=
  mkComponent (mountRef st) (sceneRef st) (rendererRef st) (cameraRef st)
              (brainRef st) (electrodesRef st) (animationFrameRef st)
              (isInitialized st) (electrodePosition st) c (frames st).

Definition withCamera (st : Component) (cam : Camera) : Component :=
  mkComponent (mountRef st) (sceneRef st) (rendererRef st) (Some cam)
              (brainRef st) (electrodesRef st) (animationFrameRef st)
              (isInitialized st) (electrodePosition st) (controls st)
              (frames st).

(** The tweens that [createBrainModel] starts write [rotation.y] and
    [position.y] of the brain group on their own clock. *)
Definition gsapWrite (st : Component) (ry py : Q) : Component :=
  match brainRef st with
  | None => st
  | Some o =>
      let o' := mkObject3D
                  (mkPosition (x (rotation o)) ry (z (rotation o)))
                  (mkPosition (x (position o)) py (z (position o))) in
      mkComponent (mountRef st) (sceneRef st) (rendererRef st)
                  (cameraRef st) (Some o') (electrodesRef st)
                  (animationFrameRef st) (isInitialized st)
                  (electrodePosition st) (controls st) (frames st)
  end.

(** The canvas delivers pointer and wheel events once the listeners are
    attached. *)
Definition listening (st : Component) : bool :=
  match rendererRef st with
  | Some r => listeners r
  | None => false
  end.

Definition step (st : Component) (ev : Event) : Component :=
  match ev with
  | Mount => initializeScene st
  | MouseMove e =>
      if listening st then withControls st (onMouseMove (controls st) e)
      else st
  | MouseDown e =>
      if listening st then withControls st (onMouseDown (controls st) e)
      else st
  | MouseUp =>
      if listening st then withControls st (onMouseUp (controls st))
      else st
  | Wheel e =>
      match cameraRef st with
      | Some cam => if listening st then withCamera st (onWheel cam e)
                    else st
      | None => st
      end
  | AnimationFrame => if isInitialized st then animate st else st
  | GsapTick ry py => gsapWrite st ry py
  | ParametersChange p =>
      if isInitialized st then createElectrodes p st else st
  end.

Definition run (st : Component) (evs : list Event) : Component :=
  fold_left step evs st.

(** The instance before its first effect runs, in a container of the
    given size. *)
Definition unmounted (width height : Q) : Component :=
  mkComponent (Some (width, height)) None None None None [] None false
              (mkPosition 0 0 0) initialControls [].

(** What [initializeScene] establishes for the loop and the handlers: the
    refs are set, the listeners attached, [updateRotation] stored on the
    renderer. *)
Definition ready (st : Component) : bool :=
  isInitialized st
  && match rendererRef st with
     | Some r => listeners r && has_updateRotation r
     | None => false
     end
  && match sceneRef st with Some _ => true | None => false end
  && match cameraRef st with Some _ => true | None => false end
  && match brainRef st with Some _ => true | None => false end.

(** The camera distance is within the zoom bounds. *)
Definition zoomInBounds (st : Component) : Prop :=
  match cameraRef st with
  | Some cam => 2 <= z (cam_position cam) <= 10
  | None => True
  end.

(** ** Anchor regions *)

(** The anchor of contact [i]: the position at which the mapper puts the
    contact when both perturbation terms are zero. *)
Definition anchor (i : nat) : Position :=
  contactAnchor (inject_Z (Z.of_nat i)).

(** Squared Euclidean distance. *)
Definition dist2 (p q : Position) : Q :=
  (x p - x q) * (x p - x q) + (y p - y q) * (y p - y q)
  + (z p - z q) * (z p - z q).

(** [p] lies in the region of anchor [i]: it is strictly nearer to anchor
    [i] than to the anchor of any other contact. *)
Definition inRegion (i : nat) (p : Position) : Prop :=
  forall j : nat, (j < 4)%nat -> j <> i ->
    dist2 p (anchor i) < dist2 p (anchor j).

Definition inRegionb (i : nat) (p : Position) : bool :=
  forallb (fun j => (j =? i)%nat
                    || negb (Qle_bool (dist2 p (anchor j))
                                      (dist2 p (anchor i))))
          [0; 1; 2; 3]%nat.

(** The parameters object of [App] with the given contact, frequency and
    amplitude. *)
Definition paramsOf (i : nat) (f a : Q) : Params :=
  mkParams (Num (inject_Z (Z.of_nat i))) (Num f) (Num a) "healthy" (Num 90).

(** ** Kinds of events *)

Definition isAnimationFrame (ev : Event) : bool :=
  match ev with
  | AnimationFrame => true
  | _ => false
  end.

Definition isMount (ev : Event) : bool :=
  match ev with
  | Mount => true
  | _ => false
  end.

(** The events of the four listeners of [addOrbitControls]. *)
Definition isPointerOrWheel (ev : Event) : bool :=
  match ev with
  | MouseMove _ | MouseDown _ | MouseUp | Wheel _ => true
  | _ => false
  end.

(** The anchor of the [default] branch of the [switch]. *)
Definition defaultAnchor : Position := mkPosition (-0.6) 0 0.3.

(** [p] is at the height of [q] and within [eps] of it in x and in y. *)
Definition within (eps : Q) (p q : Position) : Prop :=
  z p == z q /\
  - eps <= x p - x q <= eps /\
  - eps <= y p - y q <= eps.

(** Each coordinate of the list is at least the one before it, [v0] being
    the one before the first. *)
Fixpoint nondecreasingFrom (v0 : Q) (vs : list Q) : Prop :=
  match vs with
  | [] => True
  | v :: rest => v0 <= v /\ nondecreasingFrom v rest
  end.

(** Each coordinate of the list is at most the one before it. *)
Fixpoint nonincreasingFrom (v0 : Q) (vs : list Q) : Prop :=
  match vs with
  | [] => True
  | v :: rest => v <= v0 /\ nonincreasingFrom v rest
  end.

Definition isMouseMove (ev : Event) : bool :=
  match ev with
  | MouseMove _ => true
  | _ => false
  end.

End ThreeBrain.

(* ================================================================== *)
(** * The Plotly view: [BrainVisualization] *)
(* ================================================================== *)

Module Plot.
Import JS.

(** ** The simulation payload

    The shape is the one the backend sends; every property may be
    missing, which destructuring reads as [undefined]. *)

Record FieldData : Type := mkFieldData {
  fd_x_coords : option (list Q);
  fd_y_coords : option (list Q);
  fd_z_coords : option (list Q);
  field_magnitude : option (list (list (list Q)))
}.

Record TissueData : Type := mkTissueData {
  td_x_coords : option (list Q);
  td_y_coords : option (list Q);
  td_z_coords : option (list Q);
  tissue_type : option (list (list (list Z)));
  physical_size : option (list Q)
}.

Record Contact : Type := mkContact {
  position : option (list Q);
  is_active : bool
}.

Record ElectrodeData : Type := mkElectrodeData {
  contacts : option (list Contact);
  electrode_position : option (list Q)
}.

Record SimulationData : Type := mkSimulationData {
  field_data : option FieldData;
  tissue_data : option TissueData;
  electrode_data : option ElectrodeData
}.

(** The three values of the view-mode select. *)
Inductive ViewMode : Type := field | tissue | combined.

(** ** Trace descriptors *)

Record IsosurfaceTrace : Type := mkIsosurfaceTrace {
  iso_x : list Q;
  iso_y : list Q;
  iso_z : list Q;
  iso_value : list (list (list Z));
  iso_isomin : Q;
  iso_isomax : Q;
  iso_surface_count : nat;
  iso_colorscale : list (Q * string);
  iso_opacity : Q;
  iso_name : string;
  iso_showscale : bool
}.

Record VolumeTrace : Type := mkVolumeTrace {
  vol_x : option (list Q);
  vol_y : option (list Q);
  vol_z : option (list Q);
  vol_value : list (list (list Q));
  isomin : Q;
  isomax : extended;
  surface_count : nat;
  vol_colorscale : list (Q * string);
  vol_opacity : Q;
  vol_name : string;
  colorbar_title : string
}.

Record ScatterTrace : Type := mkScatterTrace {
  sc_x : list (option Q);
  sc_y : list (option Q);
  sc_z : list (option Q);
  marker_size : list nat;
  marker_color : list string;
  sc_name : string;
  sc_text : list string
}.

Inductive Trace : Type :=
| Isosurface (t : IsosurfaceTrace)
| Volume (t : VolumeTrace)
| Scatter3d (t : ScatterTrace).

(** The axis ranges of the layout, [[0, physical_size[i]]]. *)
Record Layout : Type := mkLayout {
  title : string;
  xaxis_range : Q * option Q;
  yaxis_range : Q * option Q;
  zaxis_range : Q * option Q
}.

(** ** Effects and exceptions *)

(** What the component does to the outside, in order. *)
Inductive Effect : Type :=
| ConsoleWarn (msg : string)
| ConsoleError (msg : string)
| NewPlot (traces : list Trace) (layout : Layout)
| SetInnerHTML (message : string).

Inductive Result (A : Type) : Type :=
| Return (a : A)
| Throw (error : string).
Arguments Return {A} a.
Arguments Throw {A} error.

(** A computation extends the log of effects and returns or throws. *)
Definition M (A : Type) : Type := list Effect -> Result A * list Effect.

Definition ret {A : Type} (a : A) : M A := fun log => (Return a, log).

Definition bind {A B : Type} (m : M A) (k : A -> M B) : M B :=
  fun log =>
    match m log with
    | (Return a, log') => k a log'
    | (Throw e, log') => (Throw e, log')
    end.

Definition throw {A : Type} (e : string) : M A := fun log => (Throw e, log).

Definition emit (eff : Effect) : M unit :=
  fun log => (Return tt, log ++ [eff]).

(** [try { body } catch (error) { handler }] *)
Definition tryCatch {A : Type} (body : M A) (handler : string -> M A) : M A :=
  fun log =>
    match body log with
    | (Throw e, log') => handler e log'
    | r => r
    end.

Notation "x <- m ;; k" := (bind m (fun x => k))
  (at level 61, m at next level, right associativity).
Notation "m ;;; k" := (bind m (fun _ => k))
  (at level 61, right associativity).

(** ** The trace builders *)

Definition createTissueTrace (tissueData : TissueData) : M (option Trace) :=
  tryCatch
    (match td_x_coords tissueData, td_y_coords tissueData,
           td_z_coords tissueData, tissue_type tissueData with
     | Some x_coords, Some y_coords, Some z_coords, Some labels =>
         ret (Some (Isosurface
           (mkIsosurfaceTrace x_coords y_coords z_coords labels
              0.5 2.5 3
              [(0, "#e8f4fd"); (0.5, "#fff2cc"); (1, "#ffe6e6")]%string
              0.3 "Brain Tissue" false)))
     | _, _, _, _ => ret None
     end)
    (fun error =>
       emit (ConsoleError "Error creating tissue trace:") ;;; ret None).

(** The object literal that [createFieldTrace] returns. *)
Definition volumeDescriptor (fieldData : FieldData)
    (magnitude : list (list (list Q))) (threshold : Q) (maxField : extended)
  : VolumeTrace :=
  mkVolumeTrace (fd_x_coords fieldData) (fd_y_coords fieldData)
    (fd_z_coords fieldData) magnitude
    threshold maxField 5
    [(0, "rgba(0,0,255,0)"); (0.2, "rgba(0,100,255,0.3)");
     (0.4, "rgba(0,255,100,0.5)"); (0.6, "rgba(255,255,0,0.7)");
     (0.8, "rgba(255,100,0,0.8)"); (1, "rgba(255,0,0,0.9)")]%string
    0.7 "Electric Field" "Field Strength (V/m)".

(** The call [Math.max(...xs)]: a [RangeError] when the engine does not
    take that many arguments. *)
Definition Math_max_spread (argumentLimit : N) (xs : list Q) : M extended :=
  if spreadFits argumentLimit xs then ret (Math_max xs)
  else throw "RangeError".

Definition createFieldTrace (argumentLimit : N) (fieldData : FieldData)
    (threshold : Q) : M (option Trace) :=
  tryCatch
    (match field_magnitude fieldData with
     | None => ret None
     | Some magnitude =>
         if (List.length magnitude =? 0)%nat then ret None
         else
           let flatField := flat3 magnitude in
           maxField <- Math_max_spread argumentLimit flatField ;;
           if is_zero maxField then ret None
           else
             ret (Some (Volume
                    (volumeDescriptor fieldData magnitude threshold maxField)))
     end)
    (fun error =>
       emit (ConsoleError "Error creating field trace:") ;;; ret None).

(** [contacts.map(contact => contact.position[k])]: reading an index of a
    missing [position] is a [TypeError]. *)
Fixpoint coordinates (k : nat) (cs : list Contact) : M (list (option Q)) :=
  match cs with
  | [] => ret []
  | c :: rest =>
      match position c with
      | None => throw "TypeError"
      | Some p =>
          tail <- coordinates k rest ;;
          ret (index p k :: tail)
      end
  end.

Fixpoint mapi_from {A B : Type} (i : nat) (f : A -> nat -> B) (xs : list A)
  : list B :=
  match xs with
  | [] => []
  | a :: rest => f a i :: mapi_from (S i) f rest
  end.

(** The template [`Contact ${i}: ${contact.is_active ? 'Active' : 'Inactive'}`] *)
Definition contactLabel (c : Contact) (i : nat) : string :=
  ("Contact " ++ NilEmpty.string_of_uint (Nat.to_uint i) ++ ": "
   ++ (if is_active c then "Active" else "Inactive"))%string.

Definition createElectrodeTrace (electrodeData : ElectrodeData)
  : M (option Trace) :=
  tryCatch
    (match contacts electrodeData with
     | None => ret None
     | Some cs =>
         if (List.length cs =? 0)%nat then ret None
         else
           xs <- coordinates 0 cs ;;
           ys <- coordinates 1 cs ;;
           zs <- coordinates 2 cs ;;
           let colors :=
             map (fun c => if is_active c then "#ff0000" else "#888888")%string
                 cs in
           let sizes :=
             map (fun c => if is_active c then 12 else 8)%nat cs in
           ret (Some (Scatter3d
             (mkScatterTrace xs ys zs sizes colors "DBS Electrode"
                (mapi_from 0 contactLabel cs))))
     end)
    (fun error =>
       emit (ConsoleError "Error creating electrode trace:") ;;; ret None).

(** ** Rendering *)

Section Render.

(** [Plotly.newPlot] is the library's: whether it throws on given traces
    and layout is left open. *)
Variable plotlyThrows : list Trace -> Layout -> bool.

(** How many arguments the engine takes in a call (see [spreadFits]). *)
Variable argumentLimit : N.

Definition displayErrorMessage (plotRef : bool) (message : string) : M unit :=
  if plotRef then emit (SetInnerHTML message) else ret tt.

(** [traces.push(t)] when the builder returned a trace. *)
Definition push (traces : list Trace) (t : option Trace) : list Trace :=
  match t with
  | Some tr => traces ++ [tr]
  | None => traces
  end.

Definition makeLayout (tissue_data : TissueData) : M Layout :=
  match physical_size tissue_data with
  | None => throw "TypeError"
  | Some sz =>
      ret (mkLayout "Brain Tissue and Electric Field Distribution"
                    (0, index sz 0) (0, index sz 1) (0, index sz 2))
  end.

Definition renderVisualization (simulationData : option SimulationData)
    (plotRef : bool) (visualizationMode : ViewMode) (showElectrode : bool)
    (fieldThreshold : Q) : M unit :=
  match simulationData, plotRef with
  | Some data, true =>
      tryCatch
        (match field_data data, tissue_data data with
         | Some fd, Some td =>
             let traces := [] in
             tissueTrace <-
               match visualizationMode with
               | tissue | combined => createTissueTrace td
               | field => ret None
               end ;;
             let traces := push traces tissueTrace in
             fieldTrace <-
               match visualizationMode with
               | field | combined =>
                   createFieldTrace argumentLimit fd fieldThreshold
               | tissue => ret None
               end ;;
             let traces := push traces fieldTrace in
             electrodeTrace <-
               match showElectrode, electrode_data data with
               | true, Some ed => createElectrodeTrace ed
               | _, _ => ret None
               end ;;
             let traces := push traces electrodeTrace in
             layout <- makeLayout td ;;
             if plotlyThrows traces layout then throw "Error"
             else emit (NewPlot traces layout)
         | _, _ => emit (ConsoleWarn "Missing visualization data")
         end)
        (fun error =>
           emit (ConsoleError "Visualization error:") ;;;
           displayErrorMessage plotRef "Failed to render 3D visualization")
  | _, _ => ret tt
  end.

End Render.

(** ** What a log of effects shows *)

Definition isVolume (t : Trace) : bool :=
  match t with Volume _ => true | _ => false end.

Definition isScatter (t : Trace) : bool :=
  match t with Scatter3d _ => true | _ => false end.

Definition isIsosurface (t : Trace) : bool :=
  match t with Isosurface _ => true | _ => false end.

(** Some plot of the log carries a field trace and an electrode trace and
    no tissue trace. *)
Definition plotsFieldAndElectrodeOnly (log : list Effect) : bool :=
  existsb (fun eff =>
             match eff with
             | NewPlot traces _ =>
                 existsb isVolume traces && existsb isScatter traces
                 && negb (existsb isIsosurface traces)
             | _ => false
             end) log.

(** No plot was drawn. *)
Definition plotsNothing (log : list Effect) : bool :=
  forallb (fun eff => match eff with NewPlot _ _ => false | _ => true end) log.

(** The render returns to its caller, having drawn the field and the
    electrode trace without the tissue layer. *)
Definition rendersFieldAndElectrode
    (plotlyThrows : list Trace -> Layout -> bool) (argumentLimit : N)
    (simulationData : option SimulationData) (visualizationMode : ViewMode)
    (showElectrode : bool) (fieldThreshold : Q) : Prop :=
  exists log : list Effect,
    renderVisualization plotlyThrows argumentLimit simulationData true
                        visualizationMode showElectrode fieldThreshold []
    = (Return tt, log)
    /\ plotsFieldAndElectrodeOnly log = true.

(** The volume trace that the field builder hands to its caller, if any. *)
Definition fieldTraceOf (argumentLimit : N) (fieldData : FieldData)
    (threshold : Q) : option VolumeTrace :=
  match createFieldTrace argumentLimit fieldData threshold [] with
  | (Return (Some (Volume t)), _) => Some t
  | _ => None
  end.

(** [q] is the maximum of [xs]: a bound of all of them, reached by one. *)
Definition isMaximum (q : Q) (xs : list Q) : Prop :=
  (exists v, In v xs /\ v == q) /\ (forall v, In v xs -> v <= q).

(** ** Views of a builder run on its own *)

(** What a computation returns when run on an empty log ([None] when it
    throws), and what it logs. *)
Definition resultOf {A : Type} (m : M A) : option A :=
  match m [] with
  | (Return a, _) => Some a
  | (Throw _, _) => None
  end.

Definition effectsOf {A : Type} (m : M A) : list Effect := snd (m []).

(** The trace a builder hands to [renderVisualization], if any. *)
Definition traceOf (m : M (option Trace)) : option Trace :=
  match resultOf m with
  | Some r => r
  | None => None
  end.

(** Every contact of the list has a [position]. *)
Definition allPositioned (cs : list Contact) : bool :=
  forallb (fun c => match position c with Some _ => true | None => false end)
          cs.

(** The list [traces] at the call of [Plotly.newPlot]: what the builders
    returned, tissue first, then field, then electrode. *)
Definition collectedTraces (argumentLimit : N) (fd : FieldData)
    (td : TissueData) (ed : option ElectrodeData)
    (visualizationMode : ViewMode) (showElectrode : bool)
    (fieldThreshold : Q) : list Trace :=
  let tissueTrace :=
    match visualizationMode with
    | tissue | combined => traceOf (createTissueTrace td)
    | field => None
    end in
  let fieldTrace :=
    match visualizationMode with
    | field | combined =>
        traceOf (createFieldTrace argumentLimit fd fieldThreshold)
    | tissue => None
    end in
  let electrodeTrace :=
    match showElectrode, ed with
    | true, Some e => traceOf (createElectrodeTrace e)
    | _, _ => None
    end in
  push (push (push [] tissueTrace) fieldTrace) electrodeTrace.

(** The electrode builder fails on this payload: the electrode is shown
    and some contact of a non-empty list has no position. *)
Definition electrodeFails (ed : option ElectrodeData) (showElectrode : bool)
  : bool :=
  match showElectrode, ed with
  | true, Some e =>
      match contacts e with
      | Some (c :: cs) => negb (allPositioned (c :: cs))
      | _ => false
      end
  | _, _ => false
  end.

(** The field builder fails on this payload: the field is shown and the
    magnitudes of a non-empty tensor are more than the engine takes as
    arguments. *)
Definition fieldFails (argumentLimit : N) (fd : FieldData)
    (visualizationMode : ViewMode) : bool :=
  match visualizationMode with
  | tissue => false
  | field | combined =>
      match field_magnitude fd with
      | Some (row :: rows) =>
          negb (spreadFits argumentLimit (flat3 (row :: rows)))
      | _ => false
      end
  end.

(** The three ways a render can end. *)
Definition isOutcome (eff : Effect) : bool :=
  match eff with
  | ConsoleWarn _ | NewPlot _ _ | SetInnerHTML _ => true
  | ConsoleError _ => false
  end.

Definition isConsoleError (eff : Effect) : bool :=
  match eff with
  | ConsoleError _ => true
  | _ => false
  end.

(** The layer of a trace: tissue 0, field 1, electrode 2. *)
Definition layer (t : Trace) : nat :=
  match t with
  | Isosurface _ => 0
  | Volume _ => 1
  | Scatter3d _ => 2
  end.

(** What the [catch] of [renderVisualization] does. *)
Definition failureEffects : list Effect :=
  [ConsoleError "Visualization error:";
   SetInnerHTML "Failed to render 3D visualization"].

(** [contacts.map(contact => contact.position[k])] when no read fails. *)
Definition coordsOf (k : nat) (cs : list Contact) : list (option Q) :=
  map (fun c => match position c with
                | Some p => index p k
                | None => None
                end) cs.

End Plot.

(* ================================================================== *)
(** * The backend client and the simulation state of [App] *)
(* ================================================================== *)

Module App.
Import JS.

(** ** [apiRequest] ([utils/apiClient.js]) *)

(** A JSON object, as far as [apiRequest] reads it: whether
    [data.success] is truthy; [data.error] when it is truthy, as the text
    that [new Error(data.error)] takes for its message (the string itself
    when it is a string, which is then not empty), and nothing when it is
    missing or falsy; and the rest. *)
Record Reply (A : Type) : Type := mkReply {
  success : bool;
  reply_error : option string;
  payload : A
}.
Arguments mkReply {A} success reply_error payload.
Arguments success {A} r.
Arguments reply_error {A} r.
Arguments payload {A} r.

(** A JSON value that is neither an object nor [null]: reading a property
    such as [success] or [error] of it gives [undefined].  (The elements
    of an array are not read.) *)
Inductive Plain : Type :=
| JBoolean (b : bool)
| JNumber (q : Q)
| JString (s : string)
| JArray.

(** A parsed JSON value of which a property can be read. *)
Inductive Parsed (A : Type) : Type :=
| Object (data : Reply A)
| NonObject (v : Plain).
Arguments Object {A} data.
Arguments NonObject {A} v.

(** [response.json()]: the promise rejects (with a [SyntaxError] when the
    body is no JSON), or the body parses to [null], of which reading
    property [p] throws the [TypeError] with the engine's message
    [typeError p], or it parses to another value. *)
Inductive Body (A : Type) : Type :=
| NotJson (syntaxError : string)
| JsonNull (typeError : string -> string)
| Json (data : Parsed A).
Arguments NotJson {A} syntaxError.
Arguments JsonNull {A} typeError.
Arguments Json {A} data.

(** What [fetch] settles to: a rejection (no connection), or a response
    with its status line and body. *)
Inductive Fetched (A : Type) : Type :=
| Rejected (message : string)
| Responded (ok : bool) (status : nat) (statusText : string) (body : Body A).
Arguments Rejected {A} message.
Arguments Responded {A} ok status statusText body.

(** What the promise of [apiRequest] settles to: the data, or an [Error]
    with its message. *)
Inductive ApiResult (A : Type) : Type :=
| Resolved (data : Parsed A)
| Failed (message : string).
Arguments Resolved {A} data.
Arguments Failed {A} message.

(** [s || d] on strings: the empty string and [undefined] are falsy. *)
Definition orString (s : option string) (d : string) : string :=
  match s with
  | Some (String c rest) => String c rest
  | _ => d
  end.

(** A string that is there and truthy. *)
Definition truthyString (s : option string) : bool :=
  match s with
  | Some (String _ _) => true
  | _ => false
  end.

(** [data.success] and [data.error] of a parsed value. *)
Definition successOf {A : Type} (data : Parsed A) : bool :=
  match data with
  | Object r => success r
  | NonObject _ => false
  end.

Definition errorOf {A : Type} (data : Parsed A) : option string :=
  match data with
  | Object r => reply_error r
  | NonObject _ => None
  end.

(** [data.error] is truthy. *)
Definition truthyError (e : option string) : bool :=
  match e with
  | Some _ => true
  | None => false
  end.

(** [e || d], as the message of the [Error] made from it. *)
Definition orMessage (e : option string) (d : string) : string :=
  match e with
  | Some text => text
  | None => d
  end.

(** The template [`HTTP ${response.status}: ${response.statusText}`] *)
Definition httpMessage (status : nat) (statusText : string) : string :=
  ("HTTP " ++ NilEmpty.string_of_uint (Nat.to_uint status) ++ ": "
   ++ statusText)%string.

(** [apiRequest(endpoint, options)] once [fetch] has settled: the result
    and the lines written by [console.error] (every error is logged and
    thrown again). *)
Definition apiRequest {A : Type} (endpoint : string) (fetched : Fetched A)
  : ApiResult A * list string :=
  let rethrow (message : string) : ApiResult A * list string :=
    (Failed message,
     [("API request failed for " ++ endpoint ++ ":")%string]) in
  match fetched with
  | Rejected message => rethrow message
  | Responded false status statusText body =>
      match body with
      | NotJson _ => rethrow (orMessage None (httpMessage status statusText))
      | JsonNull typeError => rethrow (typeError "error"%string)
      | Json errorData =>
          rethrow (orMessage (errorOf errorData)
                             (httpMessage status statusText))
      end
  | Responded true _ _ (NotJson syntaxError) => rethrow syntaxError
  | Responded true _ _ (JsonNull typeError) =>
      rethrow (typeError "success"%string)
  | Responded true _ _ (Json data) =>
      if negb (successOf data) && truthyError (errorOf data) then
        rethrow (orMessage (errorOf data) EmptyString)
      else (Resolved data, [])
  end.

(** ** The simulation state *)

Section Exploration.

(** The payload of [/explore], which [App] only stores. *)
Variable ExplorationData : Type.

(** [simulationState] and [explorationData]. *)
Record State : Type := mkState {
  parameters : ThreeBrain.Params;
  results : option (Parsed Plot.SimulationData);
  isRunning : bool;
  error : option string;
  explorationData : option (Parsed ExplorationData)
}.

(** [runSimulation], up to the [await]. *)
Definition runSimulation_begin (st : State) : State :=
  mkState (parameters st) (results st) true None (explorationData st).

(** [runSimulation], from the [await] on. *)
Definition runSimulation_settle (outcome : ApiResult Plot.SimulationData)
    (st : State) : State :=
  match outcome with
  | Resolved data =>
      mkState (parameters st) (Some data) false (error st)
              (explorationData st)
  | Failed message =>
      mkState (parameters st) (results st) false
              (Some (orString (Some message) "Simulation failed"))
              (explorationData st)
  end.

(** [handleExploration], from the [await] on. *)
Definition handleExploration_settle (outcome : ApiResult ExplorationData)
    (st : State) : State :=
  match outcome with
  | Resolved data =>
      mkState (parameters st) (results st) (isRunning st) (error st)
              (Some data)
  | Failed message =>
      mkState (parameters st) (results st) (isRunning st)
              (Some (orString (Some message) "Parameter exploration failed"))
              (explorationData st)
  end.

(** The close button of the error banner. *)
Definition dismissError (st : State) : State :=
  mkState (parameters st) (results st) (isRunning st) None
          (explorationData st).

(** The banner is rendered: [simulationState.error && ...]. *)
Definition bannerShown (st : State) : bool := truthyString (error st).

(** What happens to the state between renders. *)
Inductive Event : Type :=
| RunClicked
| RunSettled (fetched : Fetched Plot.SimulationData)
| ExploreSettled (fetched : Fetched ExplorationData)
| BannerClosed.

Definition step (st : State) (ev : Event) : State :=
  match ev with
  | RunClicked => runSimulation_begin st
  | RunSettled fetched =>
      runSimulation_settle (fst (apiRequest "/simulate" fetched)) st
  | ExploreSettled fetched =>
      handleExploration_settle (fst (apiRequest "/explore" fetched)) st
  | BannerClosed => dismissError st
  end.

Definition run (st : State) (evs : list Event) : State :=
  fold_left step evs st.

(** The state [App] starts in. *)
Definition initialState : State :=
  mkState (ThreeBrain.mkParams (Num 0) (Num 130) (Num 2.0) "healthy" (Num 90))
          None false None None.

End Exploration.

Arguments mkState {ExplorationData}.
Arguments parameters {ExplorationData} s.
Arguments results {ExplorationData} s.
Arguments isRunning {ExplorationData} s.
Arguments error {ExplorationData} s.
Arguments explorationData {ExplorationData} s.
Arguments runSimulation_begin {ExplorationData} st.
Arguments runSimulation_settle {ExplorationData} outcome st.
Arguments handleExploration_settle {ExplorationData} outcome st.
Arguments dismissError {ExplorationData} st.
Arguments bannerShown {ExplorationData} st.
Arguments RunClicked {ExplorationData}.
Arguments RunSettled {ExplorationData} fetched.
Arguments ExploreSettled {ExplorationData} fetched.
Arguments BannerClosed {ExplorationData}.
Arguments step {ExplorationData} st ev.
Arguments run {ExplorationData} st evs.
Arguments initialState {ExplorationData}.

End App.

(* ================================================================== *)
(** * The parameter panel and the insights of the results panel *)
(* ================================================================== *)

Module Panels.
Import JS.

(** [v < q] and [v > q] for a number literal [q]: a comparison with
    [NaN] or [undefined] is false. *)
Definition lessThan (v : value) (q : Q) : bool :=
  match v with
  | Num n => negb (Qle_bool q n)
  | _ => false
  end.

Definition greaterThan (v : value) (q : Q) : bool :=
  match v with
  | Num n => negb (Qle_bool n q)
  | _ => false
  end.

(** ** [ParameterControls] *)

Definition getFrequencyDescription (freq : value) : string :=
  if lessThan freq 50 then "Low frequency: May cause muscle effects"
  else if lessThan freq 100 then "Medium frequency: Partial therapeutic effect"
  else if lessThan freq 180 then "High frequency: Optimal therapeutic range"
  else "Very high frequency: Risk of side effects".

Definition getAmplitudeDescription (amp : value) : string :=
  if lessThan amp 1.0 then "Low amplitude: Minimal effect, good selectivity"
  else if lessThan amp 3.0 then "Medium amplitude: Good therapeutic balance"
  else if lessThan amp 5.0 then
    "High amplitude: Strong effect, increased side effects"
  else "Very high amplitude: High side effect risk".

(** ** [InsightsTab] of [ResultsDisplay] *)

Record Insight : Type := mkInsight {
  type : string;
  title : string;
  message : string
}.

(** [effects], as far as the insights read it. *)
Record TherapeuticMetrics : Type := mkTherapeuticMetrics {
  therapeutic_window : value
}.

Record EfficiencyMetrics : Type := mkEfficiencyMetrics {
  power_consumption_mw : value
}.

Record Effects : Type := mkEffects {
  therapeutic_metrics : option TherapeuticMetrics;
  efficiency_metrics : option EfficiencyMetrics
}.

Definition frequencyInsight (frequency : value) : Insight :=
  if lessThan frequency 50 then
    mkInsight "warning" "Low Frequency Warning"
      "Frequencies below 50 Hz may cause muscle contractions and worsen symptoms. Consider increasing frequency."
  else if greaterThan frequency 180 then
    mkInsight "caution" "High Frequency Caution"
      "Very high frequencies may cause speech or cognitive side effects. Monitor carefully."
  else
    mkInsight "success" "Optimal Frequency Range"
      "Current frequency is in the therapeutic range for most DBS applications.".

Definition generateInsights (parameters : ThreeBrain.Params)
    (effects : Effects) : list Insight :=
  let insights := [frequencyInsight (ThreeBrain.frequency parameters)] in
  let insights :=
    if greaterThan (ThreeBrain.amplitude parameters) 5.0 then
      insights ++ [mkInsight "warning" "High Amplitude Risk"
        "High amplitude increases side effect risk. Consider reducing amplitude or optimizing other parameters."]
    else insights in
  let therapeuticWindow :=
    or_default (match therapeutic_metrics effects with
                | Some m => therapeutic_window m
                | None => Undefined
                end) 0 in
  let insights :=
    if negb (Qle_bool therapeuticWindow 0.7) then
      insights ++ [mkInsight "success" "Excellent Therapeutic Window"
        "Great balance between therapeutic benefit and side effects."]
    else if negb (Qle_bool 0.3 therapeuticWindow) then
      insights ++ [mkInsight "warning" "Poor Therapeutic Window"
        "Consider parameter optimization to improve benefit-to-side-effect ratio."]
    else insights in
  let powerConsumption :=
    or_default (match efficiency_metrics effects with
                | Some m => power_consumption_mw m
                | None => Undefined
                end) 0 in
  let insights :=
    if negb (Qle_bool powerConsumption 10) then
      insights ++ [mkInsight "info" "High Power Consumption"
        "Current settings may reduce battery life. Consider efficiency optimization."]
    else insights in
  let insights :=
    if String.eqb (ThreeBrain.condition parameters) "parkinson" then
      insights ++ [mkInsight "info" "Parkinson's Disease Optimization"
        "For Parkinson's, focus on disrupting beta oscillations (13-30 Hz) with high-frequency stimulation."]
    else insights in
  insights.

(** An insight with the given title is in the list. *)
Definition hasInsight (t : string) (insights : list Insight) : bool :=
  existsb (fun i => String.eqb (title i) t) insights.

End Panels.

(* ================================================================== *)
(** * The tutorial: [TutorialMode] *)
(* ================================================================== *)

Module Tutorial.

(** What the [action] of a step does through the props and the state of
    the tutorial. *)
Inductive Action : Type :=
| SetCondition (condition : string)
| SetParameter (name : string) (v : Q)
| StartSimulation.

(** The [action] of each entry of [tutorialSteps], [None] for
    [action: null] (the title and the content are markup). *)
Definition tutorialSteps : list (option Action) :=
  [ None;
    Some (SetCondition "parkinson");
    Some (SetParameter "frequency" 130);
    Some (SetParameter "amplitude" 2.0);
    Some (SetParameter "contact" 0);
    Some StartSimulation;
    None; None; None; None; None ].

Record State : Type := mkState {
  currentStep : nat;
  isSimulationRunning : bool
}.

(** Calls of the props [onParameterChange] and [onRunSimulation]. *)
Inductive Call : Type :=
| OnConditionChange (condition : string)
| OnParameterChange (name : string) (v : Q)
| OnRunSimulation.

(** [nextStep]: the new state and the calls made; [None] is the
    [TypeError] of reading [action] of a step that is not there. *)
Definition nextStep (st : State) : option (State * list Call) :=
  match nth_error tutorialSteps (currentStep st) with
  | None => None
  | Some action =>
      let running :=
        match action with
        | Some StartSimulation => true
        | _ => isSimulationRunning st
        end in
      let calls :=
        match action with
        | Some (SetCondition c) => [OnConditionChange c]
        | Some (SetParameter name v) => [OnParameterChange name v]
        | Some StartSimulation => [OnRunSimulation]
        | None => []
        end in
      let next :=
        if (currentStep st <? List.length tutorialSteps - 1)%nat
        then (currentStep st + 1)%nat
        else currentStep st in
      Some (mkState next running, calls)
  end.

Definition prevStep (st : State) : State :=
  if (0 <? currentStep st)%nat
  then mkState (currentStep st - 1) (isSimulationRunning st)
  else st.

(** The effect on [simulationState.results] and
    [simulationState.isRunning]. *)
Definition simulationEffect (hasResults isRunning : bool) (st : State)
  : State :=
  if isSimulationRunning st && hasResults && negb isRunning
  then mkState (currentStep st) false
  else st.

(** The two navigation buttons; the Next button is [disabled] while
    [isSimulationRunning], and is replaced by the Complete button on the
    last step. *)
Inductive Button : Type := Next | Previous.

Definition nextEnabled (st : State) : bool :=
  negb (isSimulationRunning st)
  && negb (currentStep st =? List.length tutorialSteps - 1)%nat.

Definition press (st : option State) (b : Button) : option State :=
  match st with
  | None => None
  | Some s =>
      match b with
      | Next => if nextEnabled s then option_map fst (nextStep s)
                else Some s
      | Previous => Some (prevStep s)
      end
  end.

Definition initialState : State := mkState 0 false.

(** A sequence of button presses. *)
Definition presses (st : option State) (bs : list Button) : option State :=
  fold_left press bs st.

(** What happens to the tutorial over time: a button is pressed, or the
    component renders with the current simulation state and its effect
    runs. *)
Inductive Step : Type :=
| Press (b : Button)
| Render (hasResults isRunning : bool).

Definition advance (st : option State) (s : Step) : option State :=
  match s with
  | Press b => press st b
  | Render hasResults isRunning =>
      option_map (simulationEffect hasResults isRunning) st
  end.

Definition noResults (s : Step) : bool :=
  match s with
  | Render hasResults _ => negb hasResults
  | Press _ => true
  end.

End Tutorial.

(* ================================================================== *)
(** * Properties of the Three.js scene *)
(* ================================================================== *)

Module ThreeBrainFacts.
Import JS ThreeBrain.

(** ** Arithmetic helpers *)

Lemma Qeq_bool_false_of_lt (q : Q) : 0 < q -> Qeq_bool q 0 = false.
Proof.
  intros Hq. destruct (Qeq_bool q 0) eqn:E; [|reflexivity].
  apply Qeq_bool_eq in E. lra.
Qed.

Lemma or_default_pos (q d : Q) : 0 < q -> or_default (Num q) d = q.
Proof.
  intros Hq. unfold or_default. now rewrite Qeq_bool_false_of_lt.
Qed.

Lemma or_default_falsy (v : value) (d : Q) :
  truthy v = false -> or_default v d = d.
Proof.
  destruct v as [| |q]; simpl; try reflexivity.
  destruct (Qeq_bool q 0); simpl; [reflexivity|discriminate].
Qed.

(** The anchor table, read off the [switch]. *)
Lemma anchor_table :
  anchor 0 = mkPosition (-0.8) (-0.3) 0.2 /\
  anchor 1 = mkPosition (-0.6) (-0.1) 0.3 /\
  anchor 2 = mkPosition (-0.4) 0.1 0.4 /\
  anchor 3 = mkPosition (-0.2) 0.3 0.5.
Proof. repeat split; reflexivity. Qed.

(** On a contact index and truthy frequency and amplitude the mapper is
    the anchor plus the two perturbation terms. *)
Lemma calculateElectrodePosition_paramsOf (i : nat) (f a : Q) :
  0 < f -> 0 < a ->
  calculateElectrodePosition (paramsOf i f a)
  = mkPosition (x (anchor i) + (f - 130) * 0.001)
               (y (anchor i) + (a - 2.0) * 0.05)
               (z (anchor i)).
Proof.
  intros Hf Ha. unfold calculateElectrodePosition, paramsOf.
  cbn [contact frequency amplitude].
  rewrite (or_default_pos f 130 Hf), (or_default_pos a 2.0 Ha).
  assert (Hc : contactAnchor (or_default (Num (inject_Z (Z.of_nat i))) 0)
               = anchor i).
  { destruct i as [|[|[|[|i]]]]; reflexivity. }
  now rewrite Hc.
Qed.

Ltac index_cases i :=
  destruct i as [|[|[|[|i]]]]; [ | | | | exfalso; lia ].

(** ** The electrode position mapper *)

(** The defaults of [App]: contact 0 at 130 Hz and 2.0 mA sits on the
    deepest anchor. *)
Example position_of_default_parameters :
  pos_equiv (calculateElectrodePosition (paramsOf 0 130 2.0))
            (mkPosition (-0.8) (-0.3) 0.2).
Proof. repeat split; vm_compute; reflexivity. Qed.

(** A contact that is no index of the table, or no number at all, takes the
    [default] branch or the default contact. *)
Example position_of_odd_contacts :
  pos_equiv (calculateElectrodePosition
               (mkParams (Num 7) (Num 130) (Num 2.0) "healthy" (Num 90)))
            (mkPosition (-0.6) 0 0.3) /\
  pos_equiv (calculateElectrodePosition
               (mkParams NaN (Num 0) Undefined "healthy" (Num 90)))
            (mkPosition (-0.8) (-0.3) 0.2).
Proof. repeat split; vm_compute; reflexivity. Qed.

(** C5. The electrode position mapper is deterministic and reads no hidden
    state: two calls whose parameters agree on contact, frequency and
    amplitude return the identical position, whatever the other
    properties of the parameters object are; and whatever the state of the
    component instance is in which [createElectrodes] makes the call, the
    position it stores is that same position. *)
Theorem calculateElectrodePosition_deterministic :
  forall (p1 p2 : Params) (st1 st2 : Component) (s1 s2 : list Node),
    contact p1 = contact p2 ->
    frequency p1 = frequency p2 ->
    amplitude p1 = amplitude p2 ->
    sceneRef st1 = Some s1 ->
    sceneRef st2 = Some s2 ->
    calculateElectrodePosition p1 = calculateElectrodePosition p2 /\
    electrodePosition (createElectrodes (Some p1) st1)
    = calculateElectrodePosition p1 /\
    electrodePosition (createElectrodes (Some p2) st2)
    = calculateElectrodePosition p1.
Proof.
  intros p1 p2 st1 st2 s1 s2 Hc Hf Ha H1 H2.
  assert (E : calculateElectrodePosition p1 = calculateElectrodePosition p2).
  { unfold calculateElectrodePosition. now rewrite Hc, Hf, Ha. }
  split; [exact E|].
  unfold createElectrodes. rewrite H1, H2. cbn [electrodePosition].
  split; [reflexivity | symmetry; exact E].
Qed.

Lemma calculateElectrodePosition_deterministic_witness :
  let p1 := mkParams (Num 2) (Num 185) (Num 3.5) "healthy" (Num 90) in
  let p2 := mkParams (Num 2) (Num 185) (Num 3.5) "parkinsons" (Num 60) in
  let st1 := run (unmounted 800 600) [Mount] in
  let st2 := run (unmounted 400 300)
                 [Mount; Wheel (mkWheelEvent 120); AnimationFrame] in
  let s := [AmbientLight; DirectionalLight; BrainGroup] in
  (contact p1 = contact p2 /\ frequency p1 = frequency p2 /\
   amplitude p1 = amplitude p2 /\
   sceneRef st1 = Some s /\ sceneRef st2 = Some s) /\
  calculateElectrodePosition p1 = calculateElectrodePosition p2 /\
  electrodePosition (createElectrodes (Some p1) st1)
  = calculateElectrodePosition p1 /\
  electrodePosition (createElectrodes (Some p2) st2)
  = calculateElectrodePosition p1.
Proof.
  intros p1 p2 st1 st2 s.
  split; [repeat split; reflexivity|].
  apply (calculateElectrodePosition_deterministic p1 p2 st1 st2 s s);
    reflexivity.
Defined.

(** C6. With frequency 130 and amplitude 2.0 the mapper returns four
    pairwise distinct positions for the contacts 0, 1, 2, 3 (whatever the
    other properties of the parameters object are). *)
Theorem anchors_pairwise_distinct :
  forall (i j : nat) (cond1 cond2 : string) (pw1 pw2 : value),
    (i < 4)%nat -> (j < 4)%nat -> i <> j ->
    ~ pos_equiv
        (calculateElectrodePosition
           (mkParams (Num (inject_Z (Z.of_nat i))) (Num 130) (Num 2.0)
                     cond1 pw1))
        (calculateElectrodePosition
           (mkParams (Num (inject_Z (Z.of_nat j))) (Num 130) (Num 2.0)
                     cond2 pw2)).
Proof.
  intros i j cond1 cond2 pw1 pw2 Hi Hj Hij [_ [_ Hz]].
  index_cases i; index_cases j;
    try (now apply Hij); vm_compute in Hz; discriminate Hz.
Qed.

Lemma anchors_pairwise_distinct_witness :
  ((0 < 4)%nat /\ (3 < 4)%nat /\ 0%nat <> 3%nat) /\
  ~ pos_equiv
      (calculateElectrodePosition
         (mkParams (Num (inject_Z (Z.of_nat 0))) (Num 130) (Num 2.0)
                   "healthy" (Num 90)))
      (calculateElectrodePosition
         (mkParams (Num (inject_Z (Z.of_nat 3))) (Num 130) (Num 2.0)
                   "healthy" (Num 90))).
Proof.
  split; [lia|].
  apply (anchors_pairwise_distinct 0 3 "healthy" "healthy" (Num 90) (Num 90));
    lia.
Defined.

(** C9. A zero frequency is replaced by the default 130 and a zero
    amplitude by the default 2.0 before the perturbation is computed:
    [position(c, 0, a) = position(c, 130, a)] and
    [position(c, f, 0) = position(c, f, 2.0)], for every contact,
    amplitude and frequency value. *)
Theorem zero_parameter_is_default :
  forall (c f a : value) (cond : string) (pw : value),
    calculateElectrodePosition (mkParams c (Num 0) a cond pw)
    = calculateElectrodePosition (mkParams c (Num 130) a cond pw) /\
    calculateElectrodePosition (mkParams c f (Num 0) cond pw)
    = calculateElectrodePosition (mkParams c f (Num 2.0) cond pw).
Proof.
  intros c f a cond pw. split; reflexivity.
Qed.

(** ** Anchor regions *)

Lemma inRegionb_spec (i : nat) (p : Position) :
  (i < 4)%nat -> inRegionb i p = true <-> inRegion i p.
Proof.
  intros Hi. unfold inRegionb, inRegion. rewrite forallb_forall. split.
  - intros H j Hj Hji.
    assert (Hin : In j [0; 1; 2; 3]%nat) by (simpl; lia).
    specialize (H j Hin). apply orb_true_iff in H. destruct H as [H|H].
    + apply Nat.eqb_eq in H. contradiction.
    + apply negb_true_iff in H. apply Qnot_le_lt. intros Hle.
      apply Qle_bool_iff in Hle. congruence.
  - intros H j Hin. destruct (Nat.eqb_spec j i) as [|Hne]; [reflexivity|].
    simpl. apply negb_true_iff.
    destruct (Qle_bool _ _) eqn:E; [|reflexivity].
    apply Qle_bool_iff in E.
    assert (Hj : (j < 4)%nat) by (simpl in Hin; lia).
    specialize (H j Hj Hne). lra.
Qed.

(** Which of two anchors a point at the height of the first is nearer to
    is linear in its displacement from the first. *)
Lemma nearer_displaced (a b p : Position) :
  z p == z a ->
  (dist2 p a < dist2 p b
   <-> 0 < (x a - x b) * (x a - x b) + (y a - y b) * (y a - y b)
           + (z a - z b) * (z a - z b)
           + 2 * (x p - x a) * (x a - x b)
           + 2 * (y p - y a) * (y a - y b)).
Proof.
  intros Hz.
  assert (E : dist2 p b - dist2 p a
              == (x a - x b) * (x a - x b) + (y a - y b) * (y a - y b)
                 + (z a - z b) * (z a - z b)
                 + 2 * (x p - x a) * (x a - x b)
                 + 2 * (y p - y a) * (y a - y b)).
  { unfold dist2. rewrite Hz. ring. }
  revert E.
  generalize (dist2 p b). generalize (dist2 p a).
  generalize ((x a - x b) * (x a - x b) + (y a - y b) * (y a - y b)
              + (z a - z b) * (z a - z b)
              + 2 * (x p - x a) * (x a - x b)
              + 2 * (y p - y a) * (y a - y b)).
  intros r da db E. split; intros H; lra.
Qed.

Ltac use_anchors :=
  destruct anchor_table as (A0 & A1 & A2 & A3);
  rewrite ?A0, ?A1, ?A2, ?A3 in *; cbn [x y z] in *.

(** The anchors lie on a line, 0.2 apart in x and in y and 0.1 in z: a
    point at the height of anchor [i] is in its region exactly when the
    sum of its displacements in x and in y stays below 0.225 (unless [i]
    is the last anchor) and above -0.225 (unless it is the first). *)
Lemma region_of_displaced (i : nat) (p : Position) :
  (i < 4)%nat -> z p == z (anchor i) ->
  let s := (x p - x (anchor i)) + (y p - y (anchor i)) in
  inRegion i p <-> (i = 3%nat \/ s < 0.225) /\ (i = 0%nat \/ -0.225 < s).
Proof.
  intros Hi Hz. cbn zeta. unfold inRegion. split.
  - intros H. split.
    + destruct (Nat.eq_dec i 3) as [|Hne]; [now left|right].
      assert (Hj : (S i < 4)%nat) by lia.
      specialize (H (S i) Hj ltac:(lia)).
      apply (nearer_displaced _ _ _ Hz) in H. clear Hz. revert H.
      index_cases i; try lia; use_anchors; intros H; lra.
    + destruct (Nat.eq_dec i 0) as [|Hne]; [now left|right].
      assert (Hj : (pred i < 4)%nat) by lia.
      specialize (H (pred i) Hj ltac:(lia)).
      apply (nearer_displaced _ _ _ Hz) in H. clear Hz. revert H.
      index_cases i; try lia; cbn [pred]; use_anchors; intros H; lra.
  - intros [Hup Hlo] j Hj Hji. apply (nearer_displaced _ _ _ Hz). clear Hz.
    index_cases i; index_cases j; try (now contradiction Hji);
      destruct Hup as [Hup|Hup]; try discriminate Hup;
      destruct Hlo as [Hlo|Hlo]; try discriminate Hlo;
      use_anchors; lra.
Qed.

(** The region of a point near a mapped position, from the sum of the two
    perturbation terms. *)
Lemma region_near_mapped (i : nat) (f a : Q) (p : Position) :
  (i < 4)%nat -> 1 <= f <= 250 -> 0.1 <= a <= 10.0 ->
  within 0.0001 p (calculateElectrodePosition (paramsOf i f a)) ->
  let s := (f - 130) * 0.001 + (a - 2.0) * 0.05 in
  (i = 3%nat \/ s <= 0.224 -> inRegion i p) /\
  (i <> 3%nat -> 0.226 <= s -> ~ inRegion i p).
Proof.
  intros Hi Hf Ha. rewrite calculateElectrodePosition_paramsOf by lra.
  unfold within. cbn [x y z]. intros (Hz & Hx & Hy). cbn zeta.
  pose proof (region_of_displaced i p Hi Hz) as Hiff. cbn zeta in Hiff.
  revert Hx Hy Hiff.
  generalize (x p) (y p) (x (anchor i)) (y (anchor i)).
  intros px py ax ay Hx Hy Hiff. split.
  - intros H. apply Hiff. split.
    + destruct H as [H|H]; [now left|right]. lra.
    + right. lra.
  - intros Hne H Hin. apply Hiff in Hin. destruct Hin as [[Hup|Hup] _].
    + contradiction.
    + lra.
Qed.

Lemma within_refl (eps : Q) (p : Position) : 0 <= eps -> within eps p p.
Proof. intros H. unfold within. repeat split; lra. Qed.

(** C2, as stated, fails: contact 0 at 130 Hz and 10 mA, both within the
    slider ranges, is put 0.4 above its anchor, which is nearer to the
    anchor of contact 1 (squared distance 0.09) than to its own (0.16). *)
Lemma perturbation_crosses_boundary :
  (0 < 4)%nat /\ 1 <= 130 <= 250 /\ 0.1 <= 10.0 <= 10.0 /\
  dist2 (calculateElectrodePosition (paramsOf 0 130 10.0)) (anchor 1)
  < dist2 (calculateElectrodePosition (paramsOf 0 130 10.0)) (anchor 0) /\
  ~ inRegion 0 (calculateElectrodePosition (paramsOf 0 130 10.0)).
Proof.
  split; [lia|]. split; [lra|]. split; [lra|].
  split; [vm_compute; reflexivity|].
  intros H. specialize (H 1%nat ltac:(lia) ltac:(lia)).
  vm_compute in H. discriminate H.
Qed.

(** C2, amended. For a contact in {0,1,2,3}, a frequency in [1, 250] and an
    amplitude in [0.1, 10.0] the mapper adds [(f - 130) * 0.001] to the x
    and [(a - 2.0) * 0.05] to the y of the anchor and leaves z at the
    anchor's z.  Whether the result is in the region of its anchor is
    decided by the sum [s] of the two terms, with room to spare: when the
    contact is 3 or [s <= 0.224], the mapped position and every point
    within 0.0001 of it in x and y are strictly nearer to the contact's
    own anchor than to every other anchor, which is so for every
    amplitude up to 4.0; when the contact is not 3 and [0.226 <= s], none
    of these points is. *)
Theorem perturbed_position_region :
  forall (i : nat) (f a : Q),
    (i < 4)%nat -> 1 <= f <= 250 -> 0.1 <= a <= 10.0 ->
    let c := calculateElectrodePosition (paramsOf i f a) in
    let s := (f - 130) * 0.001 + (a - 2.0) * 0.05 in
    x c = x (anchor i) + (f - 130) * 0.001 /\
    y c = y (anchor i) + (a - 2.0) * 0.05 /\
    z c = z (anchor i) /\
    (i = 3%nat \/ s <= 0.224 ->
     forall p : Position, within 0.0001 p c -> inRegion i p) /\
    (a <= 4.0 ->
     forall p : Position, within 0.0001 p c -> inRegion i p) /\
    (i <> 3%nat -> 0.226 <= s ->
     forall p : Position, within 0.0001 p c -> ~ inRegion i p).
Proof.
  intros i f a Hi Hf Ha. cbn zeta.
  split; [now rewrite calculateElectrodePosition_paramsOf by lra|].
  split; [now rewrite calculateElectrodePosition_paramsOf by lra|].
  split; [now rewrite calculateElectrodePosition_paramsOf by lra|].
  split; [|split].
  - intros H p Hp.
    exact (proj1 (region_near_mapped i f a p Hi Hf Ha Hp) H).
  - intros Ha4 p Hp.
    apply (proj1 (region_near_mapped i f a p Hi Hf Ha Hp)). right. lra.
  - intros Hne H p Hp.
    exact (proj2 (region_near_mapped i f a p Hi Hf Ha Hp) Hne H).
Qed.

Lemma perturbed_position_region_witness :
  ((2 < 4)%nat /\ 1 <= 185 <= 250 /\ 0.1 <= 3.5 <= 10.0) /\
  z (calculateElectrodePosition (paramsOf 2 185 3.5)) = z (anchor 2) /\
  inRegion 2 (calculateElectrodePosition (paramsOf 2 185 3.5)).
Proof.
  assert (Hi : (2 < 4)%nat) by lia.
  assert (Hf : 1 <= 185 <= 250) by lra.
  assert (Ha : 0.1 <= 3.5 <= 10.0) by lra.
  destruct (perturbed_position_region 2 185 3.5 Hi Hf Ha)
    as (_ & _ & Hz & _ & Hin & _).
  split; [repeat split; (lia || lra)|].
  split; [exact Hz|]. apply Hin; [lra|]. apply within_refl. lra.
Defined.

(** ** Orbit controls and the animation loop *)

Lemma clampZoom_bounds (v : Q) : 2 <= clampZoom v <= 10.
Proof.
  unfold clampZoom. split.
  - apply Q.le_max_l.
  - apply Q.max_lub; [lra | apply Q.le_min_l].
Qed.

Lemma zoomInBounds_step (st : Component) (ev : Event) :
  zoomInBounds st -> zoomInBounds (step st ev).
Proof.
  unfold zoomInBounds. intros H.
  destruct ev as [|e|e| |e| |ry py|p]; cbn [step].
  - unfold initializeScene. destruct (mountRef st) as [[w h]|]; [|exact H].
    destruct (isInitialized st); [exact H|]. cbn. lra.
  - destruct (listening st); exact H.
  - destruct (listening st); exact H.
  - destruct (listening st); exact H.
  - destruct (cameraRef st) as [cam|] eqn:Ec; [|now rewrite Ec].
    destruct (listening st); [|now rewrite Ec].
    cbn. apply clampZoom_bounds.
  - destruct (isInitialized st); [|exact H]. unfold animate.
    destruct (rendererRef st) as [r|]; [|exact H].
    destruct (sceneRef st); [|exact H].
    destruct (cameraRef st) eqn:Ec; [|now rewrite Ec].
    destruct (has_updateRotation r); cbn; rewrite Ec; exact H.
  - unfold gsapWrite. destruct (brainRef st); exact H.
  - destruct (isInitialized st); [|exact H]. unfold createElectrodes.
    destruct (sceneRef st); [|exact H]. destruct p; exact H.
Qed.

Lemma zoomInBounds_run (evs : list Event) (st : Component) :
  zoomInBounds st -> zoomInBounds (run st evs).
Proof.
  revert st. induction evs as [|ev evs IH]; intros st H; [exact H|].
  cbn. apply IH. now apply zoomInBounds_step.
Qed.

(** C7. A wheel event adds [deltaY * 0.01] to the camera distance and
    clamps the sum to [2, 10]: after the handler the distance is within
    [2, 10] for every starting distance and every delta, and so it is
    after every wheel event of every run of the component. *)
Theorem onWheel_zoom_bounds :
  forall (camera : Camera) (event : WheelEvent),
    z (cam_position (onWheel camera event))
    = Qmax 2 (Qmin 10 (z (cam_position camera) + deltaY event * 0.01)) /\
    2 <= z (cam_position (onWheel camera event)) <= 10 /\
    forall (width height : Q) (evs : list Event),
      zoomInBounds (run (unmounted width height) (evs ++ [Wheel event])).
Proof.
  intros camera event. split; [reflexivity|]. split.
  - cbn. apply clampZoom_bounds.
  - intros width height evs. apply zoomInBounds_run. exact I.
Qed.

Lemma ready_step (st : Component) (ev : Event) :
  ready st = true -> ready (step st ev) = true.
Proof.
  unfold ready. intros H.
  destruct st as [mnt sc rd cam br els af ini ep ctl frs]. cbn in H.
  destruct ini; [|discriminate H].
  destruct rd as [r|]; [|discriminate H].
  destruct (listeners r) eqn:El; [|discriminate H].
  destruct (has_updateRotation r) eqn:Eu; [|discriminate H].
  destruct sc as [s|]; [|discriminate H].
  destruct cam as [c|]; [|discriminate H].
  destruct br as [o|]; [|discriminate H].
  destruct ev as [|e|e| |e| |ry py|p]; cbn;
    try (destruct mnt as [[w h]|]; cbn);
    try (destruct p; cbn);
    rewrite ?El, ?Eu; cbn; rewrite ?El, ?Eu; reflexivity.
Qed.

Lemma ready_run (evs : list Event) (st : Component) :
  ready st = true -> ready (run st evs) = true.
Proof.
  revert st. induction evs as [|ev evs IH]; intros st H; [exact H|].
  cbn. apply IH. now apply ready_step.
Qed.

(** Once mounted in a container the component stays ready. *)
Lemma ready_after_mount (width height : Q) (evs : list Event) :
  ready (run (unmounted width height) (Mount :: evs)) = true.
Proof.
  change (ready (run (step (unmounted width height) Mount) evs) = true).
  apply ready_run. reflexivity.
Qed.

(** A drag of 50 px to the right and 20 px up, then three wheel notches
    away and far beyond. *)
Example drag_then_zoom :
  let st := run (unmounted 800 600)
                [Mount; MouseDown (mkMouseEvent 100 100);
                 MouseMove (mkMouseEvent 150 80); MouseUp;
                 Wheel (mkWheelEvent 300)] in
  targetRotationY (controls st) == 0.5 /\
  targetRotationX (controls st) == -0.2 /\
  option_map (fun c => Qeq_bool (z (cam_position c)) 8) (cameraRef st)
  = Some true /\
  option_map (fun c => Qeq_bool (z (cam_position c)) 10)
             (cameraRef (step st (Wheel (mkWheelEvent 100000))))
  = Some true.
Proof. repeat split; vm_compute; reflexivity. Qed.

(** C8. On a tick of the animation loop of an initialised scene, both
    rotation variables make exactly the smoothing step
    [rotation += (target - rotation) * 0.1], the targets are left alone,
    the brain group gets the smoothed rotation on x and y, which is what
    the frame of this tick draws; that value is not the target unless the
    rotation had already reached it. *)
Theorem animate_smooths_rotation :
  forall st : Component,
    ready st = true ->
    let c := controls st in
    let c' := controls (animate st) in
    rotationX c' = rotationX c + (targetRotationX c - rotationX c) * 0.1 /\
    rotationY c' = rotationY c + (targetRotationY c - rotationY c) * 0.1 /\
    targetRotationX c' = targetRotationX c /\
    targetRotationY c' = targetRotationY c /\
    exists (brain : Object3D) (frame : Frame),
      brainRef (animate st) = Some brain /\
      x (rotation brain) = rotationX c' /\
      y (rotation brain) = rotationY c' /\
      frames (animate st) = frame :: frames st /\
      fr_brain frame = Some brain /\
      (~ targetRotationX c == rotationX c ->
       ~ x (rotation brain) == targetRotationX c) /\
      (~ targetRotationY c == rotationY c ->
       ~ y (rotation brain) == targetRotationY c).
Proof.
  intros st H. unfold ready in H.
  destruct st as [mnt sc rd cam br els af ini ep ctl frs]. cbn in H.
  destruct ini; [|discriminate H].
  destruct rd as [r|]; [|discriminate H].
  destruct (listeners r) eqn:El; [|discriminate H].
  destruct (has_updateRotation r) eqn:Eu; [|discriminate H].
  destruct sc as [s|]; [|discriminate H].
  destruct cam as [cm|]; [|discriminate H].
  destruct br as [o|]; [|discriminate H].
  unfold animate. cbn [rendererRef sceneRef cameraRef]. rewrite Eu.
  cbn -[Qplus Qmult Qminus].
  repeat (split; [reflexivity|]).
  eexists. eexists.
  repeat (split; [reflexivity|]).
  cbn -[Qplus Qmult Qminus]. split; intros Hne Heq; apply Hne; lra.
Qed.

Lemma animate_smooths_rotation_witness :
  let st := run (unmounted 800 600)
                [Mount; MouseDown (mkMouseEvent 100 100);
                 MouseMove (mkMouseEvent 150 80)] in
  ready st = true /\
  rotationX (controls (animate st)) == -0.02 /\
  rotationY (controls (animate st)) == 0.05.
Proof.
  intros st.
  assert (H : ready st = true) by reflexivity.
  split; [exact H|].
  destruct (animate_smooths_rotation st H) as (HX & HY & _).
  rewrite HX, HY. split; vm_compute; reflexivity.
Defined.

(** C10. A mousemove while no drag is in progress changes nothing: the
    handler returns the closure variables as they were (target rotations
    and last pointer coordinates included) and the component is left as it
    was, in every state and for every pointer position. *)
Theorem mousemove_without_drag_is_noop :
  forall (st : Component) (event : MouseEvent),
    isMouseDown (controls st) = false ->
    onMouseMove (controls st) event = controls st /\
    step st (MouseMove event) = st.
Proof.
  intros st event H.
  assert (E : onMouseMove (controls st) event = controls st).
  { unfold onMouseMove. now rewrite H. }
  split; [exact E|].
  cbn [step]. rewrite E. destruct (listening st); [|reflexivity].
  destruct st; reflexivity.
Qed.

Lemma mousemove_without_drag_is_noop_witness :
  let st := run (unmounted 800 600)
                [Mount; MouseDown (mkMouseEvent 100 100);
                 MouseMove (mkMouseEvent 150 80); MouseUp] in
  isMouseDown (controls st) = false /\
  onMouseMove (controls st) (mkMouseEvent 300 20) = controls st /\
  step st (MouseMove (mkMouseEvent 300 20)) = st.
Proof.
  intros st.
  assert (H : isMouseDown (controls st) = false) by reflexivity.
  split; [exact H|].
  exact (mousemove_without_drag_is_noop st (mkMouseEvent 300 20) H).
Defined.

(** ** Set-up, events and the loop as a whole *)

(** [initializeScene] runs once: without a mount point it does nothing,
    on an initialised component it does nothing, so a second call changes
    nothing (camera distance and rotation state are not reset). *)
Theorem initializeScene_idempotent :
  forall st : Component,
    initializeScene (initializeScene st) = initializeScene st /\
    (mountRef st = None -> initializeScene st = st) /\
    (isInitialized st = true -> initializeScene st = st).
Proof.
  intros [mnt sc rd cam br els af ini ep ctl frs].
  destruct mnt as [[w h]|]; destruct ini; cbn;
    repeat split; try reflexivity; discriminate.
Qed.

Lemma last_cons_any {A : Type} (l : list A) (a d d' : A) :
  last (a :: l) d = last (a :: l) d'.
Proof.
  revert a. induction l as [|b l IH]; intros a; [reflexivity|].
  change (last (b :: l) d = last (b :: l) d'). apply IH.
Qed.

(** While the button is down every move stores the pointer and turns the
    target the way the pointer went. *)
Lemma drag_moves (moves : list MouseEvent) :
  forall c : Controls,
    isMouseDown c = true ->
    let c' := fold_left onMouseMove moves c in
    isMouseDown c' = true /\
    mouseX c' = last (map clientX moves) (mouseX c) /\
    mouseY c' = last (map clientY moves) (mouseY c) /\
    (nondecreasingFrom (mouseX c) (map clientX moves) ->
     targetRotationY c <= targetRotationY c') /\
    (nonincreasingFrom (mouseX c) (map clientX moves) ->
     targetRotationY c' <= targetRotationY c) /\
    (nondecreasingFrom (mouseY c) (map clientY moves) ->
     targetRotationX c <= targetRotationX c') /\
    (nonincreasingFrom (mouseY c) (map clientY moves) ->
     targetRotationX c' <= targetRotationX c) /\
    rotationX c' = rotationX c /\ rotationY c' = rotationY c.
Proof.
  induction moves as [|m moves IH]; intros c Hc; cbn zeta.
  - cbn [fold_left map last].
    repeat split; try reflexivity; try assumption; intros _; apply Qle_refl.
  - cbn [fold_left].
    assert (E : onMouseMove c m
                = mkControls true (clientX m) (clientY m)
                    (targetRotationX c + (clientY m - mouseY c) * 0.01)
                    (targetRotationY c + (clientX m - mouseX c) * 0.01)
                    (rotationX c) (rotationY c)).
    { unfold onMouseMove. rewrite Hc. reflexivity. }
    rewrite E.
    set (c1 := mkControls _ _ _ _ _ _ _).
    specialize (IH c1 eq_refl). cbn zeta in IH.
    destruct IH as (H1 & H2 & H3 & H4 & H5 & H6 & H7 & H8 & H9).
    assert (Lx : last (map clientX (m :: moves)) (mouseX c)
                 = last (map clientX moves) (mouseX c1)).
    { cbn [map]. destruct moves as [|m' ms]; [reflexivity|].
      cbn [map]. change (last (clientX m :: clientX m' :: map clientX ms) (mouseX c))
        with (last (clientX m' :: map clientX ms) (mouseX c)).
      apply last_cons_any. }
    assert (Ly : last (map clientY (m :: moves)) (mouseY c)
                 = last (map clientY moves) (mouseY c1)).
    { cbn [map]. destruct moves as [|m' ms]; [reflexivity|].
      cbn [map]. change (last (clientY m :: clientY m' :: map clientY ms) (mouseY c))
        with (last (clientY m' :: map clientY ms) (mouseY c)).
      apply last_cons_any. }
    rewrite Lx, Ly.
    cbn [map nondecreasingFrom nonincreasingFrom].
    subst c1.
    cbn [targetRotationX targetRotationY mouseX mouseY] in H4, H5, H6, H7.
    repeat split; try assumption.
    + intros [Hm Hrest]. specialize (H4 Hrest). lra.
    + intros [Hm Hrest]. specialize (H5 Hrest). lra.
    + intros [Hm Hrest]. specialize (H6 Hrest). lra.
    + intros [Hm Hrest]. specialize (H7 Hrest). lra.
Qed.

Lemma withControls_same (st : Component) : withControls st (controls st) = st.
Proof. destruct st; reflexivity. Qed.

Lemma run_moves (moves : list MouseEvent) :
  forall st : Component,
    listening st = true ->
    run st (map MouseMove moves)
    = withControls st (fold_left onMouseMove moves (controls st)).
Proof.
  induction moves as [|m moves IH]; intros st Hl.
  - cbn. symmetry. apply withControls_same.
  - cbn [map run fold_left step]. rewrite Hl.
    change (fold_left step (map MouseMove moves) ?s)
      with (run s (map MouseMove moves)).
    rewrite IH by exact Hl. reflexivity.
Qed.



(** What an event other than a pointer move does to the rotation state of a
    ready component: the targets stay, and each rotation variable stays or
    makes the smoothing step. *)
Lemma smooth_step (st : Component) (ev : Event) :
  ready st = true -> isMouseMove ev = false ->
  let c := controls st in
  let c' := controls (step st ev) in
  targetRotationX c' = targetRotationX c /\
  targetRotationY c' = targetRotationY c /\
  (rotationX c' = rotationX c \/
   rotationX c' = rotationX c + (targetRotationX c - rotationX c) * 0.1) /\
  (rotationY c' = rotationY c \/
   rotationY c' = rotationY c + (targetRotationY c - rotationY c) * 0.1).
Proof.
  intros H Hev. unfold ready in H.
  destruct st as [mnt sc rd cam br els af ini ep ctl frs]. cbn in H.
  destruct ini; [|discriminate H].
  destruct rd as [r|]; [|discriminate H].
  destruct (listeners r) eqn:El; [|discriminate H].
  destruct (has_updateRotation r) eqn:Eu; [|discriminate H].
  destruct sc as [s|]; [|discriminate H].
  destruct cam as [c|]; [|discriminate H].
  destruct br as [o|]; [|discriminate H].
  destruct ev as [|e|e| |e| |ry py|p]; try discriminate Hev;
    cbn -[Qplus Qmult Qminus];
    try (destruct mnt as [[w h]|]; cbn -[Qplus Qmult Qminus]);
    try (destruct p; cbn -[Qplus Qmult Qminus]);
    rewrite ?El, ?Eu; cbn -[Qplus Qmult Qminus];
    repeat split; auto.
Qed.

(** A value that stays or makes the smoothing step, and from there stays
    between where it is and the target, stays between where it was and the
    target. *)
Lemma between_step (r r1 r' t : Q) :
  r1 = r \/ r1 = r + (t - r) * 0.1 ->
  (r1 <= t -> r1 <= r' <= t) ->
  (t <= r1 -> t <= r' <= r1) ->
  (r <= t -> r <= r' <= t) /\ (t <= r -> t <= r' <= r).
Proof.
  intros [-> | ->] H1 H2.
  - split; assumption.
  - split; intros Hle.
    + assert (H : r + (t - r) * 0.1 <= t) by lra. specialize (H1 H). lra.
    + assert (H : t <= r + (t - r) * 0.1) by lra. specialize (H2 H). lra.
Qed.

(** The smoothed rotation approaches its target and never passes it:
    over every run of a ready component in which the pointer does not
    move (animation frames, button and wheel events, tweens and parameter
    changes in any order), the targets stay what they were and each
    rotation variable stays between where it was and its target. *)
Theorem rotation_never_overshoots :
  forall (st : Component) (evs : list Event),
    ready st = true ->
    existsb isMouseMove evs = false ->
    let c := controls st in
    let c' := controls (run st evs) in
    targetRotationX c' = targetRotationX c /\
    targetRotationY c' = targetRotationY c /\
    (rotationX c <= targetRotationX c ->
     rotationX c <= rotationX c' <= targetRotationX c) /\
    (targetRotationX c <= rotationX c ->
     targetRotationX c <= rotationX c' <= rotationX c) /\
    (rotationY c <= targetRotationY c ->
     rotationY c <= rotationY c' <= targetRotationY c) /\
    (targetRotationY c <= rotationY c ->
     targetRotationY c <= rotationY c' <= rotationY c).
Proof.
  intros st evs. revert st.
  induction evs as [|ev evs IH]; intros st H Hevs; cbn zeta.
  - cbn [run fold_left].
    split; [reflexivity|]. split; [reflexivity|].
    split; [|split; [|split]]; intros Hle; split; lra.
  - cbn [existsb] in Hevs. apply orb_false_iff in Hevs.
    destruct Hevs as [Hev Hevs].
    change (run st (ev :: evs)) with (run (step st ev) evs).
    assert (Hr : ready (step st ev) = true) by now apply ready_step.
    specialize (IH (step st ev) Hr Hevs). cbn zeta in IH.
    destruct IH as (T1 & T2 & X1 & X2 & Y1 & Y2).
    destruct (smooth_step st ev H Hev) as (S1 & S2 & SX & SY).
    cbn zeta in S1, S2, SX, SY.
    rewrite S1 in T1, X1, X2. rewrite S2 in T2, Y1, Y2.
    split; [exact T1|]. split; [exact T2|].
    revert X1 X2 Y1 Y2 SX SY.
    generalize (rotationX (controls (run (step st ev) evs)))
               (rotationY (controls (run (step st ev) evs)))
               (rotationX (controls (step st ev)))
               (rotationY (controls (step st ev)))
               (rotationX (controls st)) (rotationY (controls st))
               (targetRotationX (controls st))
               (targetRotationY (controls st)).
    intros rx' ry' rx1 ry1 rx ry tx ty X1 X2 Y1 Y2 SX SY.
    destruct (between_step rx rx1 rx' tx SX X1 X2) as [HX1 HX2].
    destruct (between_step ry ry1 ry' ty SY Y1 Y2) as [HY1 HY2].
    split; [exact HX1|]. split; [exact HX2|]. split; [exact HY1 | exact HY2].
Qed.

Lemma rotation_never_overshoots_witness :
  let st := run (unmounted 800 600)
                [Mount; MouseDown (mkMouseEvent 100 100);
                 MouseMove (mkMouseEvent 150 80)] in
  let evs := [AnimationFrame; Wheel (mkWheelEvent 120); AnimationFrame;
              MouseUp; AnimationFrame] in
  (ready st = true /\ existsb isMouseMove evs = false /\
   rotationY (controls st) <= targetRotationY (controls st)) /\
  rotationY (controls st) <= rotationY (controls (run st evs))
  <= targetRotationY (controls st).
Proof.
  intros st evs.
  assert (H : ready st = true) by reflexivity.
  assert (He : existsb isMouseMove evs = false) by reflexivity.
  assert (Hle : rotationY (controls st) <= targetRotationY (controls st))
    by (vm_compute; discriminate).
  split; [split; [exact H | split; [exact He | exact Hle]]|].
  destruct (rotation_never_overshoots st evs H He) as (_ & _ & _ & _ & HY & _).
  exact (HY Hle).
Defined.

Lemma frames_step (st : Component) (ev : Event) :
  ready st = true ->
  List.length (frames (step st ev))
  = ((if isAnimationFrame ev then 1 else 0) + List.length (frames st))%nat.
Proof.
  intros H. unfold ready in H.
  destruct st as [mnt sc rd cam br els af ini ep ctl frs]. cbn in H.
  destruct ini; [|discriminate H].
  destruct rd as [r|]; [|discriminate H].
  destruct (listeners r) eqn:El; [|discriminate H].
  destruct (has_updateRotation r) eqn:Eu; [|discriminate H].
  destruct sc as [s|]; [|discriminate H].
  destruct cam as [c|]; [|discriminate H].
  destruct br as [o|]; [|discriminate H].
  destruct ev as [|e|e| |e| |ry py|p]; cbn;
    try (destruct mnt as [[w h]|]; cbn);
    try (destruct p; cbn);
    rewrite ?El, ?Eu; cbn; reflexivity.
Qed.

(** On an initialised component every animation frame draws exactly one
    frame and no other event draws any: after a run the number of frames
    has grown by the number of animation frames in it. *)
Theorem one_frame_per_tick :
  forall (st : Component) (evs : list Event),
    ready st = true ->
    List.length (frames (run st evs))
    = (List.length (filter isAnimationFrame evs)
       + List.length (frames st))%nat.
Proof.
  intros st evs. revert st.
  induction evs as [|ev evs IH]; intros st H; [reflexivity|].
  change (run st (ev :: evs)) with (run (step st ev) evs).
  rewrite IH by now apply ready_step.
  rewrite frames_step by exact H.
  cbn [filter]. destruct (isAnimationFrame ev); cbn [List.length]; lia.
Qed.

Lemma one_frame_per_tick_witness :
  let st := run (unmounted 800 600) [Mount] in
  let evs := [AnimationFrame; MouseDown (mkMouseEvent 10 10); AnimationFrame;
              Wheel (mkWheelEvent 300)] in
  ready st = true /\ List.length (frames (run st evs)) = 2%nat.
Proof.
  intros st evs.
  assert (H : ready st = true) by reflexivity.
  split; [exact H|].
  exact (one_frame_per_tick st evs H).
Defined.

(** Before the first mount nothing is processed: pointer, wheel, animation,
    tween and parameter events leave the component exactly as it was. *)
Theorem nothing_before_mount :
  forall (width height : Q) (evs : list Event),
    existsb isMount evs = false ->
    run (unmounted width height) evs = unmounted width height.
Proof.
  intros width height evs. induction evs as [|ev evs IH]; intros H.
  - reflexivity.
  - cbn [existsb] in H. apply orb_false_iff in H. destruct H as [Hm He].
    change (run (unmounted width height) (ev :: evs))
      with (run (step (unmounted width height) ev) evs).
    assert (E : step (unmounted width height) ev = unmounted width height).
    { destruct ev; try reflexivity. discriminate Hm. }
    rewrite E. now apply IH.
Qed.

Lemma nothing_before_mount_witness :
  let evs := [MouseDown (mkMouseEvent 10 10); MouseMove (mkMouseEvent 50 10);
              Wheel (mkWheelEvent 300); AnimationFrame; GsapTick 1 0.1;
              ParametersChange (Some (paramsOf 1 130 2.0))] in
  existsb isMount evs = false /\
  run (unmounted 800 600) evs = unmounted 800 600.
Proof.
  intros evs.
  assert (H : existsb isMount evs = false) by reflexivity.
  split; [exact H|].
  exact (nothing_before_mount 800 600 evs H).
Defined.

Lemma pointer_step (st : Component) (ev : Event) :
  isPointerOrWheel ev = true ->
  rotationX (controls (step st ev)) = rotationX (controls st) /\
  rotationY (controls (step st ev)) = rotationY (controls st) /\
  brainRef (step st ev) = brainRef st /\
  frames (step st ev) = frames st /\
  sceneRef (step st ev) = sceneRef st /\
  electrodePosition (step st ev) = electrodePosition st.
Proof.
  intros H. destruct ev as [|e|e| |e| |ry py|p]; try discriminate H;
    cbn [step].
  - destruct (listening st); [|now repeat split].
    unfold onMouseMove. destruct (isMouseDown (controls st));
      repeat split; reflexivity.
  - destruct (listening st); repeat split; reflexivity.
  - destruct (listening st); repeat split; reflexivity.
  - destruct (cameraRef st); [|now repeat split].
    destruct (listening st); repeat split; reflexivity.
Qed.

(** Pointer and wheel events never write the current rotation, the brain
    group, the scene or the electrode position, and never draw: only the
    animation loop applies a rotation. *)
Theorem pointer_events_never_rotate :
  forall (st : Component) (evs : list Event),
    forallb isPointerOrWheel evs = true ->
    rotationX (controls (run st evs)) = rotationX (controls st) /\
    rotationY (controls (run st evs)) = rotationY (controls st) /\
    brainRef (run st evs) = brainRef st /\
    frames (run st evs) = frames st /\
    sceneRef (run st evs) = sceneRef st /\
    electrodePosition (run st evs) = electrodePosition st.
Proof.
  intros st evs. revert st.
  induction evs as [|ev evs IH]; intros st H; [now repeat split|].
  cbn [forallb] in H. apply andb_true_iff in H. destruct H as [Hev Hevs].
  change (run st (ev :: evs)) with (run (step st ev) evs).
  destruct (IH (step st ev) Hevs) as (H1 & H2 & H3 & H4 & H5 & H6).
  destruct (pointer_step st ev Hev) as (G1 & G2 & G3 & G4 & G5 & G6).
  repeat split; congruence.
Qed.

Lemma pointer_events_never_rotate_witness :
  let st := run (unmounted 800 600)
                [Mount; MouseDown (mkMouseEvent 100 100);
                 MouseMove (mkMouseEvent 150 80); AnimationFrame] in
  let evs := [MouseMove (mkMouseEvent 10 300); Wheel (mkWheelEvent (-200));
              MouseUp; MouseDown (mkMouseEvent 0 0)] in
  forallb isPointerOrWheel evs = true /\
  brainRef (run st evs) = brainRef st /\
  frames (run st evs) = frames st.
Proof.
  intros st evs.
  assert (H : forallb isPointerOrWheel evs = true) by reflexivity.
  split; [exact H|].
  destruct (pointer_events_never_rotate st evs H) as (_ & _ & HB & HF & _).
  split; [exact HB | exact HF].
Defined.

(** [createDBSElectrode] highlights contact [i] exactly when [i] is the
    selected contact ([parameters.contact || 0]), so at most one of the
    four; when the selected contact is none of 0..3 no contact is
    highlighted and the electrode sits on the default anchor. *)
Theorem highlighted_contact :
  forall p : Params,
    let c := or_default (contact p) 0 in
    let flags := activeFlags (Some p) in
    List.length flags = 4%nat /\
    (forall i : nat, (i < 4)%nat ->
       (nth i flags false = true <-> inject_Z (Z.of_nat i) == c)) /\
    (List.length (filter (fun b : bool => b) flags) <= 1)%nat /\
    (filter (fun b : bool => b) flags = [] ->
     contactAnchor c = defaultAnchor /\
     z (calculateElectrodePosition p) = z defaultAnchor).
Proof.
  intros p. cbn zeta. unfold activeFlags, calculateElectrodePosition.
  generalize (or_default (contact p) 0). intros c.
  cbn [map List.length nth filter z].
  change (inject_Z (Z.of_nat 0)) with 0.
  change (inject_Z (Z.of_nat 1)) with 1.
  change (inject_Z (Z.of_nat 2)) with 2.
  change (inject_Z (Z.of_nat 3)) with 3.
  split; [reflexivity|]. split.
  - intros i Hi. index_cases i; cbn [nth];
      change (inject_Z (Z.of_nat 0)) with 0;
      change (inject_Z (Z.of_nat 1)) with 1;
      change (inject_Z (Z.of_nat 2)) with 2;
      change (inject_Z (Z.of_nat 3)) with 3;
      apply Qeq_bool_iff.
  - unfold contactAnchor.
    rewrite (Qeq_bool_comm c 0), (Qeq_bool_comm c 1), (Qeq_bool_comm c 2),
            (Qeq_bool_comm c 3).
    destruct (Qeq_bool 0 c) eqn:E0; destruct (Qeq_bool 1 c) eqn:E1;
      destruct (Qeq_bool 2 c) eqn:E2; destruct (Qeq_bool 3 c) eqn:E3;
      cbn [filter List.length z];
      repeat match goal with
             | H : Qeq_bool _ _ = true |- _ => apply Qeq_bool_eq in H
             end;
      try (exfalso; lra);
      (split; [lia | intros Hn; try discriminate Hn; split; reflexivity]).
Qed.

(** The height of the electrode tells the contact, whatever the frequency
    and the amplitude are (numbers or not): two contacts of 0..3 are put
    at the same z exactly when they are the same contact, so different
    contacts are never put at the same position. *)
Theorem height_determines_contact :
  forall (i j : nat) (f g a b : value) (cond1 cond2 : string)
         (pw1 pw2 : value),
    (i < 4)%nat -> (j < 4)%nat ->
    let p1 := calculateElectrodePosition
                (mkParams (Num (inject_Z (Z.of_nat i))) f a cond1 pw1) in
    let p2 := calculateElectrodePosition
                (mkParams (Num (inject_Z (Z.of_nat j))) g b cond2 pw2) in
    z p1 = z (anchor i) /\
    (z p1 == z p2 <-> i = j) /\
    (i <> j -> ~ pos_equiv p1 p2).
Proof.
  intros i j f g a b cond1 cond2 pw1 pw2 Hi Hj. cbn zeta.
  unfold calculateElectrodePosition. cbn [contact z].
  assert (Ei : contactAnchor (or_default (Num (inject_Z (Z.of_nat i))) 0)
               = anchor i)
    by (destruct i as [|[|[|[|i]]]]; reflexivity).
  assert (Ej : contactAnchor (or_default (Num (inject_Z (Z.of_nat j))) 0)
               = anchor j)
    by (destruct j as [|[|[|[|j]]]]; reflexivity).
  rewrite Ei, Ej.
  assert (Hiff : z (anchor i) == z (anchor j) <-> i = j).
  { split; [|intros ->; reflexivity].
    index_cases i; index_cases j; intros Hz; try reflexivity;
      vm_compute in Hz; discriminate Hz. }
  split; [reflexivity|]. split; [exact Hiff|].
  intros Hne (_ & _ & Hz). cbn [z] in Hz. apply Hne. now apply Hiff.
Qed.

Lemma height_determines_contact_witness :
  ((1 < 4)%nat /\ (3 < 4)%nat) /\
  ~ pos_equiv
      (calculateElectrodePosition
         (mkParams (Num (inject_Z (Z.of_nat 1))) (Num 250) (Num 10.0)
                   "healthy" (Num 90)))
      (calculateElectrodePosition
         (mkParams (Num (inject_Z (Z.of_nat 3))) (Num 1) NaN
                   "parkinsons" (Num 60))).
Proof.
  assert (H1 : (1 < 4)%nat) by lia.
  assert (H3 : (3 < 4)%nat) by lia.
  split; [split; assumption|].
  apply (height_determines_contact 1 3 (Num 250) (Num 1) (Num 10.0) NaN
           "healthy" "parkinsons" (Num 90) (Num 60) H1 H3).
  lia.
Defined.

End ThreeBrainFacts.

(* ================================================================== *)
(** * Properties of the Plotly view *)
(* ================================================================== *)

Module PlotFacts.
Import JS Plot.

(** ** The field-volume builder *)

(** No argument always fits. *)
Lemma spreadFits_nil {A : Type} (argumentLimit : N) :
  spreadFits argumentLimit ([] : list A) = true.
Proof. unfold spreadFits. apply N.leb_le. cbn. apply N.le_0_l. Qed.

(** The builder never throws: it returns to its caller the value below,
    and logs one error when the magnitudes do not fit in one call. *)
Lemma createFieldTrace_eq (argumentLimit : N) (fd : FieldData) (th : Q)
    (log : list Effect) :
  createFieldTrace argumentLimit fd th log
  = match field_magnitude fd with
    | None => (Return None, log)
    | Some m =>
        if (List.length m =? 0)%nat then (Return None, log)
        else if spreadFits argumentLimit (flat3 m) then
          (Return
             (if is_zero (Math_max (flat3 m)) then None
              else Some (Volume
                           (volumeDescriptor fd m th (Math_max (flat3 m))))),
           log)
        else (Return None, log ++ [ConsoleError "Error creating field trace:"])
    end.
Proof.
  unfold createFieldTrace, tryCatch, Math_max_spread.
  destruct (field_magnitude fd) as [m|]; [|reflexivity].
  destruct (List.length m =? 0)%nat; [reflexivity|].
  unfold bind.
  destruct (spreadFits argumentLimit (flat3 m)); [|reflexivity].
  cbn. destruct (is_zero (Math_max (flat3 m))); reflexivity.
Qed.

Lemma Math_max_empty_iff (xs : list Q) : Math_max xs = NegInfinity <-> xs = [].
Proof.
  destruct xs as [|v rest]; cbn; [tauto|].
  destruct (Math_max rest); split; discriminate.
Qed.

(** On at least one argument [Math.max] is the maximum. *)
Lemma Math_max_isMaximum (xs : list Q) :
  xs <> [] -> exists q, Math_max xs = Finite q /\ isMaximum q xs.
Proof.
  induction xs as [|v rest IH]; [congruence|]. intros _.
  destruct rest as [|w rest'].
  - exists v. split; [reflexivity|]. split.
    + exists v. split; [now left | reflexivity].
    + intros u [<-|[]]. apply Qle_refl.
  - destruct IH as (m & Em & (u & Hu & Eu) & Hub); [discriminate|].
    change (Math_max (v :: w :: rest'))
      with (match Math_max (w :: rest') with
            | NegInfinity => Finite v
            | Finite m => Finite (Qmax v m)
            end).
    rewrite Em. exists (Qmax v m). split; [reflexivity|]. split.
    + destruct (Q.max_spec v m) as [[Hlt E]|[Hle E]].
      * exists u. split; [now right | now rewrite Eu, E].
      * exists v. split; [now left | now rewrite E].
    + intros t [<-|Ht].
      * apply Q.le_max_l.
      * apply Qle_trans with m; [now apply Hub | apply Q.le_max_r].
Qed.

(** What the builder does on a tensor with at least one magnitude.  When
    the engine takes the magnitudes as the arguments of one call: no trace
    when the maximum is zero, else the volume trace from the threshold to
    the maximum, and nothing is logged.  When it does not, the call of
    [Math.max] throws: the builder logs the error and returns no trace. *)
Theorem createFieldTrace_nonempty :
  forall (argumentLimit : N) (fd : FieldData) (m : list (list (list Q)))
         (th : Q) (log : list Effect),
    field_magnitude fd = Some m -> flat3 m <> [] ->
    (spreadFits argumentLimit (flat3 m) = true /\
     exists q, Math_max (flat3 m) = Finite q /\ isMaximum q (flat3 m) /\
       ((q == 0 /\
         createFieldTrace argumentLimit fd th log = (Return None, log)) \/
        (~ q == 0 /\
         createFieldTrace argumentLimit fd th log
         = (Return (Some (Volume (volumeDescriptor fd m th (Finite q)))),
            log)))) \/
    (spreadFits argumentLimit (flat3 m) = false /\
     createFieldTrace argumentLimit fd th log
     = (Return None, log ++ [ConsoleError "Error creating field trace:"])).
Proof.
  intros argumentLimit fd m th log Hm Hne.
  rewrite createFieldTrace_eq, Hm.
  assert (Hlen : (List.length m =? 0)%nat = false).
  { destruct m; [now contradiction Hne | reflexivity]. }
  rewrite Hlen.
  destruct (spreadFits argumentLimit (flat3 m)); [left|right; now split].
  split; [reflexivity|].
  destruct (Math_max_isMaximum _ Hne) as (q & Eq & Hmax).
  exists q. split; [exact Eq|]. split; [exact Hmax|].
  rewrite Eq. cbn [is_zero].
  destruct (Qeq_bool q 0) eqn:E.
  - left. split; [now apply Qeq_bool_eq | reflexivity].
  - right. split; [|reflexivity].
    intros H. apply Qeq_eq_bool in H. congruence.
Qed.

(** No trace on a missing or empty [field_magnitude]. *)
Lemma createFieldTrace_absent (argumentLimit : N) (fd : FieldData) (th : Q)
    (log : list Effect) :
  field_magnitude fd = None \/ field_magnitude fd = Some [] ->
  createFieldTrace argumentLimit fd th log = (Return None, log).
Proof.
  intros [H|H]; rewrite createFieldTrace_eq, H; reflexivity.
Qed.

(** A tensor that is not empty but holds no magnitude gets a trace whose
    upper bound is [-Infinity]. *)
Lemma createFieldTrace_hollow (argumentLimit : N) (fd : FieldData)
    (m : list (list (list Q))) (th : Q) (log : list Effect) :
  field_magnitude fd = Some m -> m <> [] -> flat3 m = [] ->
  createFieldTrace argumentLimit fd th log
  = (Return (Some (Volume (volumeDescriptor fd m th NegInfinity))), log).
Proof.
  intros Hm Hne Hflat.
  rewrite createFieldTrace_eq, Hm, Hflat, spreadFits_nil.
  destruct m; [now contradiction Hne | reflexivity].
Qed.

(** C3. The code at the failing input: for the tensor [[[]]] (one row, one
    column, no magnitude) the flattened sequence is empty, and the builder
    does not return "no trace" but a volume trace whose [isomax] is
    [-Infinity], in every engine. *)
Theorem createFieldTrace_hollow_tensor :
  forall argumentLimit : N,
    let fd := mkFieldData (Some [0]) (Some [0]) (Some []) (Some [[[]]]) in
    flat3 [[[]]] = ([] : list Q) /\
    Math_max (flat3 [[[]]]) = NegInfinity /\
    createFieldTrace argumentLimit fd 0.1 []
    = (Return (Some (Volume (volumeDescriptor fd [[[]]] 0.1 NegInfinity))),
       []) /\
    exists t, fieldTraceOf argumentLimit fd 0.1 = Some t /\
              isomin t = 0.1 /\ isomax t = NegInfinity.
Proof.
  intros argumentLimit fd.
  assert (E : createFieldTrace argumentLimit fd 0.1 []
              = (Return (Some (Volume (volumeDescriptor fd [[[]]] 0.1
                                         NegInfinity))), [])).
  { apply createFieldTrace_hollow; [reflexivity | discriminate | reflexivity]. }
  split; [reflexivity|]. split; [reflexivity|]. split; [exact E|].
  unfold fieldTraceOf. rewrite E. eexists. repeat split.
Qed.

(** C4. Every field-volume trace has the surface count 5, whatever the
    threshold: for a threshold in [0.01, 1.0] the trace has count 5 and
    [isomin] equal to the threshold, and for every larger threshold the
    builder returns a trace for the same payload again, with count 5, the
    same [isomax], and only [isomin] raised. *)
Theorem fieldTrace_surface_count_fixed :
  forall (argumentLimit : N) (fd : FieldData) (th : Q) (t : VolumeTrace),
    0.01 <= th <= 1.0 ->
    fieldTraceOf argumentLimit fd th = Some t ->
    surface_count t = 5%nat /\ isomin t = th /\
    forall th' : Q, th <= th' ->
      exists t', fieldTraceOf argumentLimit fd th' = Some t' /\
                 surface_count t' = 5%nat /\
                 isomin t' = th' /\ isomax t' = isomax t.
Proof.
  intros argumentLimit fd th t _ H. unfold fieldTraceOf in *.
  rewrite createFieldTrace_eq in H.
  destruct (field_magnitude fd) as [m|] eqn:Em; [|discriminate H].
  destruct (List.length m =? 0)%nat eqn:El; [discriminate H|].
  destruct (spreadFits argumentLimit (flat3 m)) eqn:Es; [|discriminate H].
  destruct (is_zero (Math_max (flat3 m))) eqn:Ez; [discriminate H|].
  injection H as <-. split; [reflexivity|]. split; [reflexivity|].
  intros th' _. rewrite createFieldTrace_eq, Em, El, Es, Ez.
  eexists. repeat split.
Qed.

Lemma fieldTrace_surface_count_fixed_witness :
  let fd := mkFieldData (Some [0; 1]) (Some [0]) (Some [0; 1])
                        (Some [[[0.2; 0.9]]; [[1.4; 0.0]]]) in
  let t := volumeDescriptor fd [[[0.2; 0.9]]; [[1.4; 0.0]]] 0.1 (Finite 1.4) in
  0.01 <= 0.1 <= 1.0 /\
  fieldTraceOf 65535 fd 0.1 = Some t /\
  surface_count t = 5%nat /\ isomin t = 0.1 /\
  forall th' : Q, 0.1 <= th' ->
    exists t', fieldTraceOf 65535 fd th' = Some t' /\
               surface_count t' = 5%nat /\
               isomin t' = th' /\ isomax t' = isomax t.
Proof.
  intros fd t.
  assert (Hth : 0.01 <= 0.1 <= 1.0) by lra.
  assert (Ht : fieldTraceOf 65535 fd 0.1 = Some t) by reflexivity.
  split; [exact Hth|]. split; [exact Ht|].
  exact (fieldTrace_surface_count_fixed 65535 fd 0.1 t Hth Ht).
Defined.

(** ** Rendering *)

(** A [try] whose handler returns, returns. *)
Lemma tryCatch_returns {A : Type} (body : M A) (handler : string -> M A) :
  (forall e log, exists a log', handler e log = (Return a, log')) ->
  forall log, exists a log', tryCatch body handler log = (Return a, log').
Proof.
  intros Hh log. unfold tryCatch.
  destruct (body log) as [[a|e] log'].
  - now exists a, log'.
  - apply Hh.
Qed.

(** No exception leaves [renderVisualization], whatever the payload, the
    view state and the behaviour of [Plotly.newPlot]. *)
Lemma renderVisualization_returns
    (plotlyThrows : list Trace -> Layout -> bool) (argumentLimit : N)
    (data : option SimulationData) (plotRef : bool) (mode : ViewMode)
    (showElectrode : bool) (th : Q) (log : list Effect) :
  exists log',
    renderVisualization plotlyThrows argumentLimit data plotRef mode
                        showElectrode th log
    = (Return tt, log').
Proof.
  unfold renderVisualization.
  destruct data as [d|]; [|now exists log].
  destruct plotRef; [|now exists log].
  match goal with
  | |- exists l, tryCatch ?b ?h log = _ =>
      destruct (tryCatch_returns b h) with (log := log) as ([] & log' & E)
  end.
  - intros e l. exists tt. eexists. reflexivity.
  - now exists log'.
Qed.

(** C1, as stated, fails: with [tissue_data] missing and a good field and
    electrode payload, in combined mode with the electrode shown, the
    render draws no plot at all; it only warns. *)
Lemma missing_tissue_draws_nothing :
  let fd := mkFieldData (Some [0; 1]) (Some [0]) (Some [0; 1])
                        (Some [[[0.2; 0.9]]; [[1.4; 0.0]]]) in
  let ed := mkElectrodeData
              (Some [mkContact (Some [1; 2; 3]) true;
                     mkContact (Some [1; 2; 4]) false])
              (Some [1; 2; 3]) in
  let data := mkSimulationData (Some fd) None (Some ed) in
  renderVisualization (fun _ _ => false) 65535 (Some data) true combined true
                      0.1 []
  = (Return tt, [ConsoleWarn "Missing visualization data"]) /\
  ~ rendersFieldAndElectrode (fun _ _ => false) 65535 (Some data) combined
                             true 0.1.
Proof.
  intros fd ed data. split; [reflexivity|].
  intros (log & E & H). cbv in E. injection E as <-. discriminate H.
Qed.

(** C1, amended. For a payload without [tissue_data] the render, in every
    view mode and with or without the electrode, warns "Missing
    visualization data" and returns to its caller without an exception and
    without drawing a plot: the field and the electrode trace are not
    rendered either. *)
Theorem missing_tissue_warns_only :
  forall (plotlyThrows : list Trace -> Layout -> bool) (argumentLimit : N)
         (data : SimulationData) (mode : ViewMode) (showElectrode : bool)
         (th : Q) (log : list Effect),
    tissue_data data = None ->
    renderVisualization plotlyThrows argumentLimit (Some data) true mode
                        showElectrode th log
    = (Return tt, log ++ [ConsoleWarn "Missing visualization data"]) /\
    (plotsNothing log = true ->
     plotsNothing (log ++ [ConsoleWarn "Missing visualization data"]) = true) /\
    ~ rendersFieldAndElectrode plotlyThrows argumentLimit (Some data) mode
                               showElectrode th.
Proof.
  intros plotlyThrows argumentLimit data mode showElectrode th log Ht.
  assert (E : forall l,
    renderVisualization plotlyThrows argumentLimit (Some data) true mode
                        showElectrode th l
    = (Return tt, l ++ [ConsoleWarn "Missing visualization data"])).
  { intros l. unfold renderVisualization, tryCatch. rewrite Ht.
    destruct (field_data data); reflexivity. }
  split; [apply E|]. split.
  - intros H. unfold plotsNothing in *. rewrite forallb_app, H. reflexivity.
  - intros (l & El & Hl). rewrite E in El. injection El as <-.
    discriminate Hl.
Qed.

Lemma missing_tissue_warns_only_witness :
  let fd := mkFieldData (Some [0; 1]) (Some [0]) (Some [0; 1])
                        (Some [[[0.2; 0.9]]; [[1.4; 0.0]]]) in
  let ed := mkElectrodeData
              (Some [mkContact (Some [1; 2; 3]) true]) (Some [1; 2; 3]) in
  let data := mkSimulationData (Some fd) None (Some ed) in
  tissue_data data = None /\
  renderVisualization (fun _ _ => false) 65535 (Some data) true combined true
                      0.1 []
  = (Return tt, [ConsoleWarn "Missing visualization data"]).
Proof.
  intros fd ed data.
  assert (H : tissue_data data = None) by reflexivity.
  split; [exact H|].
  exact (proj1 (missing_tissue_warns_only (fun _ _ => false) 65535 data
                  combined true 0.1 [] H)).
Defined.

(** With the tissue payload present the same field and electrode payload
    is drawn: the three layers in combined mode. *)
Example complete_payload_draws_three_layers :
  let fd := mkFieldData (Some [0; 1]) (Some [0]) (Some [0; 1])
                        (Some [[[0.2; 0.9]]; [[1.4; 0.0]]]) in
  let td := mkTissueData (Some [0; 1]) (Some [0]) (Some [0; 1])
                         (Some [[[0; 1]]; [[2; 1]]]%Z)
                         (Some [50; 50; 50]) in
  let ed := mkElectrodeData
              (Some [mkContact (Some [1; 2; 3]) true]) (Some [1; 2; 3]) in
  let data := mkSimulationData (Some fd) (Some td) (Some ed) in
  exists iso vol sc layout,
    renderVisualization (fun _ _ => false) 65535 (Some data) true combined
                        true 0.1 []
    = (Return tt, [NewPlot [Isosurface iso; Volume vol; Scatter3d sc] layout])
    /\ isomin vol = 0.1 /\ isomax vol = Finite 1.4
    /\ sc_text sc = ["Contact 0: Active"%string].
Proof.
  intros fd td ed data. do 4 eexists. repeat split.
Qed.

(** Failure isolation: a contact without a position makes the electrode
    builder throw; the error is logged and the other two layers are
    drawn. *)
Example broken_electrode_is_isolated :
  let fd := mkFieldData (Some [0; 1]) (Some [0]) (Some [0; 1])
                        (Some [[[0.2; 0.9]]; [[1.4; 0.0]]]) in
  let td := mkTissueData (Some [0; 1]) (Some [0]) (Some [0; 1])
                         (Some [[[0; 1]]; [[2; 1]]]%Z)
                         (Some [50; 50; 50]) in
  let ed := mkElectrodeData
              (Some [mkContact (Some [1; 2; 3]) true; mkContact None false])
              None in
  let data := mkSimulationData (Some fd) (Some td) (Some ed) in
  exists iso vol layout,
    renderVisualization (fun _ _ => false) 65535 (Some data) true combined
                        true 0.1 []
    = (Return tt, [ConsoleError "Error creating electrode trace:";
                   NewPlot [Isosurface iso; Volume vol] layout]).
Proof.
  intros fd td ed data. do 3 eexists. reflexivity.
Qed.

(** A tissue payload without [physical_size], or a plot that Plotly
    refuses, ends in the error message, not in an exception. *)
Example layout_failure_is_displayed :
  let fd := mkFieldData (Some [0; 1]) (Some [0]) (Some [0; 1])
                        (Some [[[0.2; 0.9]]; [[1.4; 0.0]]]) in
  let td := mkTissueData (Some [0; 1]) (Some [0]) (Some [0; 1])
                         (Some [[[0; 1]]; [[2; 1]]]%Z) in
  let failed := [ConsoleError "Visualization error:";
                 SetInnerHTML "Failed to render 3D visualization"] in
  renderVisualization (fun _ _ => false) 65535
    (Some (mkSimulationData (Some fd) (Some (td None)) None))
    true field false 0.1 []
  = (Return tt, failed) /\
  renderVisualization (fun _ _ => true) 65535
    (Some (mkSimulationData (Some fd) (Some (td (Some [50; 50; 50]))) None))
    true field false 0.1 []
  = (Return tt, failed).
Proof. split; reflexivity. Qed.

(** The builder on a tensor of four magnitudes, in an engine that takes
    three arguments. *)
Lemma createFieldTrace_nonempty_witness :
  let m := [[[0.2; 0.9]]; [[1.4; 0.0]]] in
  let fd := mkFieldData (Some [0; 1]) (Some [0]) (Some [0; 1]) (Some m) in
  (field_magnitude fd = Some m /\ flat3 m <> []) /\
  createFieldTrace 3 fd 0.1 []
  = (Return None, [ConsoleError "Error creating field trace:"]).
Proof.
  intros m fd.
  assert (Hm : field_magnitude fd = Some m) by reflexivity.
  assert (Hne : flat3 m <> []) by (intros H; discriminate H).
  split; [split; assumption|].
  destruct (createFieldTrace_nonempty 3 fd m 0.1 [] Hm Hne)
    as [(Hs & _) | (_ & H)].
  - discriminate Hs.
  - exact H.
Defined.

(** ** The builders, run on their own *)

(** The tissue builder returns without logging. *)
Lemma createTissueTrace_eq (td : TissueData) (log : list Effect) :
  createTissueTrace td log
  = (Return (traceOf (createTissueTrace td)), log) /\
  (traceOf (createTissueTrace td) = None \/
   exists t, traceOf (createTissueTrace td) = Some (Isosurface t)).
Proof.
  unfold traceOf, resultOf, createTissueTrace, tryCatch.
  destruct (td_x_coords td), (td_y_coords td), (td_z_coords td),
    (tissue_type td); cbn; split; try reflexivity; eauto.
Qed.

(** The field builder hands over a volume trace or nothing. *)
Lemma fieldTrace_kind (argumentLimit : N) (fd : FieldData) (th : Q) :
  traceOf (createFieldTrace argumentLimit fd th) = None \/
  exists t, traceOf (createFieldTrace argumentLimit fd th) = Some (Volume t).
Proof.
  unfold traceOf, resultOf. rewrite createFieldTrace_eq.
  destruct (field_magnitude fd) as [m|]; [|now left].
  destruct (List.length m =? 0)%nat; [now left|].
  destruct (spreadFits argumentLimit (flat3 m)); [|now left].
  destruct (is_zero (Math_max (flat3 m))); [now left|]. right. eauto.
Qed.

(** The field step of a render: the trace handed over, and one console
    error when the builder failed. *)
Lemma field_step (argumentLimit : N) (fd : FieldData) (mode : ViewMode)
    (th : Q) (log : list Effect) :
  (match mode with
   | field | combined => createFieldTrace argumentLimit fd th
   | tissue => ret None
   end) log
  = (Return (match mode with
             | field | combined =>
                 traceOf (createFieldTrace argumentLimit fd th)
             | tissue => None
             end),
     log ++ (if fieldFails argumentLimit fd mode
             then [ConsoleError "Error creating field trace:"]
             else [])).
Proof.
  assert (E : createFieldTrace argumentLimit fd th log
              = (Return (traceOf (createFieldTrace argumentLimit fd th)),
                 log ++ (if fieldFails argumentLimit fd field
                         then [ConsoleError "Error creating field trace:"]
                         else []))).
  { unfold traceOf, resultOf, fieldFails. rewrite !createFieldTrace_eq.
    destruct (field_magnitude fd) as [[|row rows]|];
      try (cbn; now rewrite app_nil_r).
    cbn [List.length Nat.eqb].
    destruct (spreadFits argumentLimit (flat3 (row :: rows)));
      cbn [negb]; [now rewrite app_nil_r | reflexivity]. }
  destruct mode; [exact E | cbn; now rewrite app_nil_r | exact E].
Qed.

Lemma coordinates_ok (k : nat) (cs : list Contact) (log : list Effect) :
  allPositioned cs = true ->
  coordinates k cs log = (Return (coordsOf k cs), log).
Proof.
  induction cs as [|c cs IH]; intros H; [reflexivity|].
  cbn [allPositioned forallb] in H. apply andb_true_iff in H.
  destruct H as [Hc Hcs]. cbn [coordinates coordsOf map].
  destruct (position c) as [p|]; [|discriminate Hc].
  unfold bind. rewrite (IH Hcs). reflexivity.
Qed.

Lemma coordinates_throws (k : nat) (cs : list Contact) (log : list Effect) :
  allPositioned cs = false ->
  coordinates k cs log = (Throw "TypeError", log).
Proof.
  induction cs as [|c cs IH]; intros H; [discriminate H|].
  cbn [allPositioned forallb] in H. cbn [coordinates].
  destruct (position c) as [p|]; [|reflexivity].
  cbn in H. unfold bind. rewrite (IH H). reflexivity.
Qed.

Lemma createElectrodeTrace_eq (ed : ElectrodeData) (log : list Effect) :
  createElectrodeTrace ed log
  = match contacts ed with
    | None | Some [] => (Return None, log)
    | Some cs =>
        if allPositioned cs then
          (Return (Some (Scatter3d
             (mkScatterTrace (coordsOf 0 cs) (coordsOf 1 cs) (coordsOf 2 cs)
                (map (fun c => if is_active c then 12 else 8)%nat cs)
                (map (fun c => if is_active c then "#ff0000" else "#888888")%string cs)
                "DBS Electrode" (mapi_from 0 contactLabel cs)))), log)
        else
          (Return None, log ++ [ConsoleError "Error creating electrode trace:"])
    end.
Proof.
  unfold createElectrodeTrace, tryCatch.
  destruct (contacts ed) as [[|c cs]|]; try reflexivity.
  cbn [List.length Nat.eqb]. unfold bind.
  destruct (allPositioned (c :: cs)) eqn:E.
  - rewrite !(coordinates_ok _ _ _ E). reflexivity.
  - rewrite (coordinates_throws _ _ _ E). reflexivity.
Qed.

Lemma nth_error_mapi_from {A B : Type} (f : A -> nat -> B) (xs : list A) :
  forall (s i : nat),
    nth_error (mapi_from s f xs) i
    = option_map (fun a => f a (s + i)%nat) (nth_error xs i).
Proof.
  induction xs as [|a xs IH]; intros s i.
  - destruct i; reflexivity.
  - destruct i as [|i]; cbn [mapi_from nth_error option_map].
    + now rewrite Nat.add_0_r.
    + rewrite IH. now rewrite Nat.add_succ_r.
Qed.

Lemma allPositioned_nth (cs : list Contact) (i : nat) (c : Contact) :
  allPositioned cs = true -> nth_error cs i = Some c ->
  exists p, position c = Some p.
Proof.
  unfold allPositioned. rewrite forallb_forall. intros H Hn.
  specialize (H c (nth_error_In _ _ Hn)).
  destruct (position c) as [p|]; [eauto | discriminate H].
Qed.

(** The electrode builder never throws.  It returns a scatter trace
    exactly when [contacts] is a non-empty list in which every contact has
    a position; a missing or empty list gives no trace silently; a contact
    without a position gives no trace and one console error. *)
Theorem createElectrodeTrace_outcome :
  forall (ed : ElectrodeData) (log : list Effect),
    exists (r : option Trace) (added : list Effect),
      createElectrodeTrace ed log = (Return r, log ++ added) /\
      match contacts ed with
      | Some (c :: cs) =>
          if allPositioned (c :: cs)
          then (exists t, r = Some (Scatter3d t)) /\ added = []
          else r = None /\
               added = [ConsoleError "Error creating electrode trace:"]
      | _ => r = None /\ added = []
      end.
Proof.
  intros ed log. rewrite createElectrodeTrace_eq.
  destruct (contacts ed) as [[|c cs]|].
  - exists None, []. now rewrite app_nil_r.
  - destruct (allPositioned (c :: cs)).
    + eexists. exists []. rewrite app_nil_r. split; [reflexivity|]. eauto.
    + eexists. eexists. split; [reflexivity|]. auto.
  - exists None, []. now rewrite app_nil_r.
Qed.

Lemma length_mapi_from {A B : Type} (f : A -> nat -> B) (xs : list A) :
  forall s : nat, List.length (mapi_from s f xs) = List.length xs.
Proof.
  induction xs as [|a l IH]; intros s; [reflexivity|].
  cbn [mapi_from List.length]. now rewrite IH.
Qed.

(** In the trace of the electrode builder the coordinates, marker sizes,
    marker colours and hover texts have one entry per contact, in the
    order of the contacts: entry [i] holds the three coordinates of
    contact [i] ([undefined] where the position is too short), size 12 and
    red when the contact is active and size 8 and grey otherwise, and the
    label of contact [i]. *)
Theorem electrode_markers_follow_contacts :
  forall (ed : ElectrodeData) (log log' : list Effect) (t : Trace),
    createElectrodeTrace ed log = (Return (Some t), log') ->
    exists (sc : ScatterTrace) (cs : list Contact),
      t = Scatter3d sc /\ contacts ed = Some cs /\ cs <> [] /\ log' = log /\
      List.length (sc_x sc) = List.length cs /\
      List.length (sc_y sc) = List.length cs /\
      List.length (sc_z sc) = List.length cs /\
      List.length (marker_size sc) = List.length cs /\
      List.length (marker_color sc) = List.length cs /\
      List.length (sc_text sc) = List.length cs /\
      forall (i : nat) (c : Contact),
        nth_error cs i = Some c ->
        (exists p, position c = Some p /\
                   nth_error (sc_x sc) i = Some (index p 0) /\
                   nth_error (sc_y sc) i = Some (index p 1) /\
                   nth_error (sc_z sc) i = Some (index p 2)) /\
        nth_error (marker_size sc) i
        = Some (if is_active c then 12 else 8)%nat /\
        nth_error (marker_color sc) i
        = Some (if is_active c then "#ff0000" else "#888888")%string /\
        nth_error (sc_text sc) i = Some (contactLabel c i).
Proof.
  intros ed log log' t H. rewrite createElectrodeTrace_eq in H.
  destruct (contacts ed) as [cs|]; [|discriminate H].
  assert (Hne : cs <> []) by (intros ->; discriminate H).
  assert (E : allPositioned cs = true).
  { destruct cs; [discriminate H|].
    destruct (allPositioned (c :: cs)); [reflexivity | discriminate H]. }
  assert (Ht : t = Scatter3d
             (mkScatterTrace (coordsOf 0 cs) (coordsOf 1 cs) (coordsOf 2 cs)
                (map (fun c => if is_active c then 12 else 8)%nat cs)
                (map (fun c => if is_active c then "#ff0000" else "#888888")%string cs)
                "DBS Electrode" (mapi_from 0 contactLabel cs)) /\ log' = log).
  { destruct cs as [|c cs']; [now contradiction Hne|]. rewrite E in H.
    injection H as <- <-. split; reflexivity. }
  destruct Ht as [-> ->]. clear H.
  eexists. exists cs.
  split; [reflexivity|]. split; [reflexivity|]. split; [exact Hne|].
  split; [reflexivity|].
  cbn [sc_x sc_y sc_z marker_size marker_color sc_text].
  unfold coordsOf. rewrite !length_map, length_mapi_from.
  repeat (split; [reflexivity|]).
  intros i c Hn. rewrite nth_error_mapi_from, !nth_error_map, Hn.
  cbn [option_map]. destruct (allPositioned_nth cs i c E Hn) as (p & Ep).
  rewrite Ep. split; [exists p; now repeat split|]. now repeat split.
Qed.

Lemma electrode_markers_follow_contacts_witness :
  let ed := mkElectrodeData
              (Some [mkContact (Some [1; 2; 3]) true;
                     mkContact (Some [1; 2]) false]) None in
  exists t : Trace,
    createElectrodeTrace ed [] = (Return (Some t), []) /\
    exists (sc : ScatterTrace) (cs : list Contact),
      t = Scatter3d sc /\ contacts ed = Some cs /\
      marker_size sc = [12; 8]%nat /\
      sc_z sc = [Some 3; None] /\
      List.length (sc_text sc) = List.length cs.
Proof.
  intros ed. eexists. split; [reflexivity|].
  destruct (electrode_markers_follow_contacts ed [] [] _ eq_refl)
    as (sc & cs & Ht & Hc & _ & _ & _ & _ & _ & _ & _ & Hl & _).
  exists sc, cs. injection Ht as <-. injection Hc as <-.
  repeat split; reflexivity.
Defined.

Lemma electrode_step (ed : option ElectrodeData) (se : bool)
    (log : list Effect) :
  (match se, ed with
   | true, Some e => createElectrodeTrace e
   | _, _ => ret None
   end) log
  = (Return (match se, ed with
             | true, Some e => traceOf (createElectrodeTrace e)
             | _, _ => None
             end),
     log ++ (if electrodeFails ed se
             then [ConsoleError "Error creating electrode trace:"]
             else [])) /\
  (match se, ed with
   | true, Some e => traceOf (createElectrodeTrace e)
   | _, _ => None
   end = None \/
   exists t, match se, ed with
             | true, Some e => traceOf (createElectrodeTrace e)
             | _, _ => None
             end = Some (Scatter3d t)) /\
  (electrodeFails ed se = true ->
   match se, ed with
   | true, Some e => traceOf (createElectrodeTrace e)
   | _, _ => None
   end = None).
Proof.
  unfold electrodeFails.
  destruct se; [|cbn; rewrite app_nil_r; repeat split; auto; discriminate].
  destruct ed as [e|];
    [|cbn; rewrite app_nil_r; repeat split; auto; discriminate].
  unfold traceOf, resultOf. rewrite !createElectrodeTrace_eq.
  destruct (contacts e) as [[|c cs]|];
    try (cbn; rewrite app_nil_r; repeat split; auto; discriminate).
  destruct (allPositioned (c :: cs)); cbn [negb fst snd].
  - rewrite app_nil_r. repeat split; eauto. discriminate.
  - repeat split; auto.
Qed.

(** ** A render as a whole *)

(** What the builders log in a render: the error of the field builder,
    then the error of the electrode builder. *)
Lemma builder_errors (argumentLimit : N) (fd : FieldData)
    (ed : option ElectrodeData) (mode : ViewMode) (se : bool) :
  forallb isConsoleError
    ((if fieldFails argumentLimit fd mode
      then [ConsoleError "Error creating field trace:"] else [])
     ++ (if electrodeFails ed se
         then [ConsoleError "Error creating electrode trace:"] else []))
  = true /\
  plotsNothing
    ((if fieldFails argumentLimit fd mode
      then [ConsoleError "Error creating field trace:"] else [])
     ++ (if electrodeFails ed se
         then [ConsoleError "Error creating electrode trace:"] else []))
  = true.
Proof.
  destruct (fieldFails argumentLimit fd mode), (electrodeFails ed se);
    split; reflexivity.
Qed.

(** What a render does when both required payloads are there. *)
Lemma renderVisualization_present
    (plotlyThrows : list Trace -> Layout -> bool) (argumentLimit : N)
    (data : SimulationData) (fd : FieldData) (td : TissueData)
    (mode : ViewMode) (se : bool) (th : Q) (log : list Effect) :
  field_data data = Some fd -> tissue_data data = Some td ->
  let traces :=
    collectedTraces argumentLimit fd td (electrode_data data) mode se th in
  renderVisualization plotlyThrows argumentLimit (Some data) true mode se th
                      log
  = (Return tt,
     log ++ ((if fieldFails argumentLimit fd mode
              then [ConsoleError "Error creating field trace:"]
              else [])
             ++ (if electrodeFails (electrode_data data) se
                 then [ConsoleError "Error creating electrode trace:"]
                 else []))
         ++ match resultOf (makeLayout td) with
            | Some layout =>
                if plotlyThrows traces layout then failureEffects
                else [NewPlot traces layout]
            | None => failureEffects
            end).
Proof.
  intros Hf Ht traces. unfold renderVisualization, tryCatch.
  rewrite Hf, Ht. unfold bind at 1.
  assert (E1 : (match mode with
                | tissue | combined => createTissueTrace td
                | field => ret None
                end) log
               = (Return (match mode with
                          | tissue | combined => traceOf (createTissueTrace td)
                          | field => None
                          end), log)).
  { destruct mode; try reflexivity; apply createTissueTrace_eq. }
  rewrite E1. unfold bind at 1.
  rewrite (field_step argumentLimit fd mode th log). unfold bind at 1.
  set (log0 := log ++ (if fieldFails argumentLimit fd mode then _ else _)).
  destruct (electrode_step (electrode_data data) se log0) as (E3 & _).
  rewrite E3. subst traces. unfold collectedTraces. cbv zeta.
  set (trs := push _ _).
  set (log1 := log0 ++ _).
  unfold bind, makeLayout, resultOf, failureEffects, throw, ret, emit,
    displayErrorMessage.
  destruct (physical_size td) as [sz|].
  - match goal with
    | |- context [plotlyThrows trs ?l] => destruct (plotlyThrows trs l)
    end; unfold log1, log0; cbv [emit]; rewrite <- !app_assoc; reflexivity.
  - unfold log1, log0. cbv [emit]. rewrite <- !app_assoc. reflexivity.
Qed.

Lemma render_absent
    (plotlyThrows : list Trace -> Layout -> bool) (argumentLimit : N)
    (data : SimulationData) (mode : ViewMode) (se : bool) (th : Q)
    (log : list Effect) :
  field_data data = None \/ tissue_data data = None ->
  renderVisualization plotlyThrows argumentLimit (Some data) true mode se th
                      log
  = (Return tt, log ++ [ConsoleWarn "Missing visualization data"]).
Proof.
  intros H. unfold renderVisualization, tryCatch.
  destruct (field_data data), (tissue_data data); try reflexivity.
  destruct H; discriminate.
Qed.

(** Every render of a payload into a mounted plot returns to its caller
    and ends in exactly one of three things, written last to the log: the
    warning about missing data (exactly when [field_data] or
    [tissue_data] is missing), one plot, or the error message; whatever
    precedes it are console errors. *)
Theorem render_ends_in_one_outcome :
  forall (plotlyThrows : list Trace -> Layout -> bool) (argumentLimit : N)
         (data : SimulationData) (mode : ViewMode) (se : bool) (th : Q)
         (log : list Effect),
    exists (pre : list Effect) (final : Effect),
      renderVisualization plotlyThrows argumentLimit (Some data) true mode se
                          th log
      = (Return tt, log ++ pre ++ [final]) /\
      forallb isConsoleError pre = true /\
      isOutcome final = true /\
      (final = ConsoleWarn "Missing visualization data" <->
       field_data data = None \/ tissue_data data = None).
Proof.
  intros plotlyThrows argumentLimit data mode se th log.
  destruct (field_data data) as [fd|] eqn:Ef.
  2:{ exists [], (ConsoleWarn "Missing visualization data").
      rewrite render_absent by (left; exact Ef).
      repeat split; auto. }
  destruct (tissue_data data) as [td|] eqn:Et.
  2:{ exists [], (ConsoleWarn "Missing visualization data").
      rewrite render_absent by (right; exact Et).
      repeat split; auto. }
  rewrite (renderVisualization_present plotlyThrows argumentLimit data fd td
             mode se th log Ef Et).
  destruct (builder_errors argumentLimit fd (electrode_data data) mode se)
    as (Herrs & _).
  set (errs := (if fieldFails argumentLimit fd mode then _ else _) ++ _) in *.
  set (traces := collectedTraces _ _ _ _ _ _ _).
  assert (Hfail : exists pre final,
            errs ++ failureEffects = pre ++ [final] /\
            forallb isConsoleError pre = true /\ isOutcome final = true /\
            final <> ConsoleWarn "Missing visualization data").
  { exists (errs ++ [ConsoleError "Visualization error:"]),
           (SetInnerHTML "Failed to render 3D visualization").
    rewrite <- app_assoc. split; [reflexivity|].
    rewrite forallb_app, Herrs. repeat split; discriminate. }
  destruct (resultOf (makeLayout td)) as [layout|].
  - destruct (plotlyThrows traces layout).
    + destruct Hfail as (pre & final & E & H1 & H2 & H3).
      exists pre, final. rewrite E. repeat split; auto.
      * intros ->. now contradiction H3.
      * intros [H|H]; discriminate H.
    + exists errs, (NewPlot traces layout). repeat split; auto.
      * discriminate.
      * intros [H|H]; discriminate H.
  - destruct Hfail as (pre & final & E & H1 & H2 & H3).
    exists pre, final. rewrite E. repeat split; auto.
    + intros ->. now contradiction H3.
    + intros [H|H]; discriminate H.
Qed.

(** The layers of the collected traces. *)
Lemma collectedTraces_layers (argumentLimit : N) (fd : FieldData)
    (td : TissueData) (ed : option ElectrodeData) (mode : ViewMode)
    (se : bool) (th : Q) :
  let traces := collectedTraces argumentLimit fd td ed mode se th in
  (exists b0 b1 b2 : bool,
     map layer traces
     = (if b0 then [0%nat] else []) ++ (if b1 then [1%nat] else [])
       ++ (if b2 then [2%nat] else [])) /\
  (mode = field -> existsb isIsosurface traces = false) /\
  (mode = tissue -> existsb isVolume traces = false) /\
  (se = false \/ ed = None -> existsb isScatter traces = false).
Proof.
  cbn zeta. unfold collectedTraces.
  destruct (electrode_step ed se []) as (_ & He & _).
  set (te := match se, ed with
             | true, Some e => traceOf (createElectrodeTrace e)
             | _, _ => None
             end) in *.
  assert (Hse : se = false \/ ed = None -> te = None).
  { unfold te. intros [-> | ->]; [reflexivity | now destruct se]. }
  destruct (createTissueTrace_eq td []) as (_ & Ht).
  pose proof (fieldTrace_kind argumentLimit fd th) as Hf.
  set (tt0 := match mode with
              | field => None
              | _ => traceOf (createTissueTrace td)
              end).
  set (tf := match mode with
             | tissue => None
             | _ => traceOf (createFieldTrace argumentLimit fd th)
             end).
  assert (Ht0 : (tt0 = None \/ exists t, tt0 = Some (Isosurface t))
                /\ (mode = field -> tt0 = None)).
  { unfold tt0. destruct mode; auto; split; auto; discriminate. }
  assert (Hf0 : (tf = None \/ exists t, tf = Some (Volume t))
                /\ (mode = tissue -> tf = None)).
  { unfold tf. destruct mode; auto; split; auto; discriminate. }
  clearbody tt0 tf te.
  destruct Ht0 as [[-> | (t0 & ->)] Hm0];
    destruct Hf0 as [[-> | (t1 & ->)] Hm1];
    destruct He as [-> | (t2 & ->)]; cbn;
    (split;
     [ first [ now exists false, false, false | now exists false, false, true
             | now exists false, true, false | now exists false, true, true
             | now exists true, false, false | now exists true, false, true
             | now exists true, true, false | now exists true, true, true ]
     | repeat split; intros H;
       first [ reflexivity
             | specialize (Hm0 H); discriminate Hm0
             | specialize (Hm1 H); discriminate Hm1
             | specialize (Hse H); discriminate Hse ] ]).
Qed.

(** What is plotted follows the view state: at most one trace per layer,
    tissue before field before electrode; no tissue trace in field mode,
    no field trace in tissue mode, and no electrode trace when the
    electrode is hidden or there is no electrode payload. *)
Theorem plotted_layers_follow_view_state :
  forall (plotlyThrows : list Trace -> Layout -> bool) (argumentLimit : N)
         (data : SimulationData) (mode : ViewMode) (se : bool) (th : Q)
         (log' : list Effect) (traces : list Trace) (layout : Layout),
    renderVisualization plotlyThrows argumentLimit (Some data) true mode se
                        th []
    = (Return tt, log') ->
    In (NewPlot traces layout) log' ->
    (exists b0 b1 b2 : bool,
       map layer traces
       = (if b0 then [0%nat] else []) ++ (if b1 then [1%nat] else [])
         ++ (if b2 then [2%nat] else [])) /\
    (mode = field -> existsb isIsosurface traces = false) /\
    (mode = tissue -> existsb isVolume traces = false) /\
    (se = false \/ electrode_data data = None ->
     existsb isScatter traces = false).
Proof.
  intros plotlyThrows argumentLimit data mode se th log' traces layout H Hin.
  destruct (field_data data) as [fd|] eqn:Ef.
  2:{ rewrite render_absent in H by (left; exact Ef).
      injection H as <-. destruct Hin as [Hin|[]]. discriminate Hin. }
  destruct (tissue_data data) as [td|] eqn:Et.
  2:{ rewrite render_absent in H by (right; exact Et).
      injection H as <-. destruct Hin as [Hin|[]]. discriminate Hin. }
  rewrite (renderVisualization_present plotlyThrows argumentLimit data fd td
             mode se th [] Ef Et) in H.
  injection H as <-. cbn [app] in Hin.
  assert (E : traces = collectedTraces argumentLimit fd td
                         (electrode_data data) mode se th).
  { apply in_app_or in Hin. destruct Hin as [Hin|Hin].
    - exfalso.
      destruct (builder_errors argumentLimit fd (electrode_data data) mode se)
        as (_ & Hn).
      unfold plotsNothing in Hn. rewrite forallb_forall in Hn.
      specialize (Hn _ Hin). discriminate Hn.
    - destruct (resultOf (makeLayout td)) as [l|].
      + destruct (plotlyThrows _ l).
        * destruct Hin as [Hin|[Hin|[]]]; discriminate Hin.
        * destruct Hin as [Hin|[]]. now injection Hin.
      + destruct Hin as [Hin|[Hin|[]]]; discriminate Hin. }
  subst traces. apply collectedTraces_layers.
Qed.

Lemma plotted_layers_follow_view_state_witness :
  let fd := mkFieldData (Some [0; 1]) (Some [0]) (Some [0; 1])
                        (Some [[[0.2; 0.9]]; [[1.4; 0.0]]]) in
  let td := mkTissueData (Some [0; 1]) (Some [0]) (Some [0; 1])
                         (Some [[[0; 1]]; [[2; 1]]]%Z)
                         (Some [50; 50; 50]) in
  let ed := mkElectrodeData
              (Some [mkContact (Some [1; 2; 3]) true]) (Some [1; 2; 3]) in
  let data := mkSimulationData (Some fd) (Some td) (Some ed) in
  exists (log' : list Effect) (traces : list Trace) (layout : Layout),
    renderVisualization (fun _ _ => false) 65535 (Some data) true field true
                        0.1 []
    = (Return tt, log') /\
    In (NewPlot traces layout) log' /\
    map layer traces = [1; 2]%nat /\
    existsb isIsosurface traces = false.
Proof.
  intros fd td ed data. do 3 eexists.
  split; [reflexivity|]. split; [left; reflexivity|].
  split; [reflexivity|].
  refine (proj1 (proj2 (plotted_layers_follow_view_state
                          (fun _ _ => false) 65535 data field true 0.1 _ _ _
                          eq_refl (or_introl eq_refl))) eq_refl).
Defined.

(** Failure isolation: when the electrode builder fails, the render does
    what it does with the electrode hidden (the same plot of the other
    layers, or the same failure), with one more console error, logged
    after the error of the field builder if that failed too. *)
Theorem broken_electrode_leaves_other_layers :
  forall (plotlyThrows : list Trace -> Layout -> bool) (argumentLimit : N)
         (data : SimulationData) (fd : FieldData) (td : TissueData)
         (mode : ViewMode) (th : Q) (log : list Effect),
    field_data data = Some fd -> tissue_data data = Some td ->
    electrodeFails (electrode_data data) true = true ->
    let pre := if fieldFails argumentLimit fd mode
               then [ConsoleError "Error creating field trace:"]
               else [] in
    exists rest : list Effect,
      renderVisualization plotlyThrows argumentLimit (Some data) true mode
                          false th log
      = (Return tt, log ++ pre ++ rest) /\
      renderVisualization plotlyThrows argumentLimit (Some data) true mode
                          true th log
      = (Return tt,
         log ++ pre
             ++ ConsoleError "Error creating electrode trace:" :: rest).
Proof.
  intros plotlyThrows argumentLimit data fd td mode th log Ef Et Hfail.
  cbn zeta.
  rewrite !(renderVisualization_present plotlyThrows argumentLimit data fd td
              mode _ th log Ef Et).
  rewrite Hfail.
  assert (Hhid : electrodeFails (electrode_data data) false = false)
    by reflexivity.
  rewrite Hhid.
  assert (E : collectedTraces argumentLimit fd td (electrode_data data) mode
                              true th
              = collectedTraces argumentLimit fd td (electrode_data data) mode
                                false th).
  { unfold collectedTraces.
    destruct (electrode_step (electrode_data data) true []) as (_ & _ & H).
    rewrite (H Hfail). reflexivity. }
  rewrite E. eexists. rewrite app_nil_r, <- !app_assoc.
  split; reflexivity.
Qed.

Lemma broken_electrode_leaves_other_layers_witness :
  let fd := mkFieldData (Some [0; 1]) (Some [0]) (Some [0; 1])
                        (Some [[[0.2; 0.9]]; [[1.4; 0.0]]]) in
  let td := mkTissueData (Some [0; 1]) (Some [0]) (Some [0; 1])
                         (Some [[[0; 1]]; [[2; 1]]]%Z)
                         (Some [50; 50; 50]) in
  let ed := mkElectrodeData
              (Some [mkContact (Some [1; 2; 3]) true; mkContact None false])
              None in
  let data := mkSimulationData (Some fd) (Some td) (Some ed) in
  (field_data data = Some fd /\ tissue_data data = Some td /\
   electrodeFails (electrode_data data) true = true) /\
  exists rest : list Effect,
    renderVisualization (fun _ _ => false) 3 (Some data) true combined false
                        0.1 []
    = (Return tt, ConsoleError "Error creating field trace:" :: rest) /\
    renderVisualization (fun _ _ => false) 3 (Some data) true combined true
                        0.1 []
    = (Return tt,
       ConsoleError "Error creating field trace:"
       :: ConsoleError "Error creating electrode trace:" :: rest).
Proof.
  intros fd td ed data.
  split; [repeat split; reflexivity|].
  exact (broken_electrode_leaves_other_layers (fun _ _ => false) 3 data fd td
           combined 0.1 [] eq_refl eq_refl eq_refl).
Defined.

(** When the tissue payload has no [physical_size], or [Plotly.newPlot]
    throws, nothing is plotted although the traces were built: the render
    logs the error and shows the message "Failed to render 3D
    visualization". *)
Theorem failed_plot_shows_message :
  forall (plotlyThrows : list Trace -> Layout -> bool) (argumentLimit : N)
         (data : SimulationData) (fd : FieldData) (td : TissueData)
         (mode : ViewMode) (se : bool) (th : Q) (log : list Effect),
    field_data data = Some fd -> tissue_data data = Some td ->
    physical_size td = None \/ (forall t l, plotlyThrows t l = true) ->
    exists pre : list Effect,
      renderVisualization plotlyThrows argumentLimit (Some data) true mode se
                          th log
      = (Return tt, log ++ pre ++ failureEffects) /\
      forallb isConsoleError pre = true /\
      plotsNothing (pre ++ failureEffects) = true.
Proof.
  intros plotlyThrows argumentLimit data fd td mode se th log Ef Et H.
  rewrite (renderVisualization_present plotlyThrows argumentLimit data fd td
             mode se th log Ef Et).
  pose proof (builder_errors argumentLimit fd (electrode_data data) mode se)
    as Herrs.
  set (errs := (if fieldFails argumentLimit fd mode then _ else _) ++ _) in *.
  exists errs.
  assert (E : match resultOf (makeLayout td) with
              | Some layout =>
                  if plotlyThrows
                       (collectedTraces argumentLimit fd td
                          (electrode_data data) mode se th)
                       layout
                  then failureEffects else [NewPlot
                       (collectedTraces argumentLimit fd td
                          (electrode_data data) mode se th)
                       layout]
              | None => failureEffects
              end = failureEffects).
  { destruct H as [H|H].
    - unfold resultOf, makeLayout. rewrite H. reflexivity.
    - destruct (resultOf (makeLayout td)); [now rewrite H | reflexivity]. }
  rewrite E. split; [reflexivity|]. split; [apply Herrs|].
  unfold plotsNothing in *. rewrite forallb_app. destruct Herrs as [_ ->].
  reflexivity.
Qed.

Lemma failed_plot_shows_message_witness :
  let fd := mkFieldData (Some [0; 1]) (Some [0]) (Some [0; 1])
                        (Some [[[0.2; 0.9]]; [[1.4; 0.0]]]) in
  let td := mkTissueData (Some [0; 1]) (Some [0]) (Some [0; 1])
                         (Some [[[0; 1]]; [[2; 1]]]%Z) None in
  let data := mkSimulationData (Some fd) (Some td) None in
  (field_data data = Some fd /\ tissue_data data = Some td /\
   physical_size td = None) /\
  exists pre : list Effect,
    renderVisualization (fun _ _ => false) 65535 (Some data) true combined
                        true 0.1 []
    = (Return tt, pre ++ failureEffects) /\
    forallb isConsoleError pre = true /\
    plotsNothing (pre ++ failureEffects) = true.
Proof.
  intros fd td data.
  split; [repeat split; reflexivity|].
  exact (failed_plot_shows_message (fun _ _ => false) 65535 data fd td
           combined true 0.1 [] eq_refl eq_refl (or_introl eq_refl)).
Defined.

End PlotFacts.

(* ================================================================== *)
(** * Properties of the backend client and of the simulation state *)
(* ================================================================== *)

Module AppFacts.
Import JS App.

Lemma orString_truthy (s : option string) (d : string) :
  d <> EmptyString -> truthyString (Some (orString s d)) = true.
Proof.
  intros Hd. destruct s as [[|c r]|]; cbn; try reflexivity;
    destruct d; [now contradiction Hd | reflexivity
                | now contradiction Hd | reflexivity].
Qed.

(** [apiRequest] resolves exactly on a response that is [ok] and whose
    body parses to a value other than [null] that reports success or
    carries no truthy error: so an object with [success: false] and no
    [error] resolves like a success, and so does every number, string,
    boolean or array.  A body [null] never resolves: the request fails
    with the [TypeError] of the property read.  Every rejection is logged
    once, and a resolution logs nothing. *)
Theorem apiRequest_resolves_iff :
  forall (A : Type) (endpoint : string) (fetched : Fetched A)
         (data : Parsed A),
    (fst (apiRequest endpoint fetched) = Resolved data <->
     exists status statusText,
       fetched = Responded true status statusText (Json data) /\
       (successOf data = true \/ truthyError (errorOf data) = false)) /\
    (forall (status : nat) (statusText : string) (v : Plain),
       fetched = Responded true status statusText (Json (NonObject v)) ->
       fst (apiRequest endpoint fetched) = Resolved (NonObject v)) /\
    (forall (ok : bool) (status : nat) (statusText : string)
            (typeError : string -> string),
       fetched = Responded ok status statusText (JsonNull typeError) ->
       fst (apiRequest endpoint fetched)
       = Failed (typeError (if ok then "success" else "error")%string)) /\
    (snd (apiRequest endpoint fetched)
     = match fst (apiRequest endpoint fetched) with
       | Resolved _ => []
       | Failed _ =>
           [("API request failed for " ++ endpoint ++ ":")%string]
       end).
Proof.
  intros A endpoint fetched data. split; [|split; [|split]].
  - split.
    + destruct fetched as [m|[|] status text [e|te|d]]; cbn;
        try discriminate.
      destruct (negb (successOf d) && truthyError (errorOf d)) eqn:E;
        cbn; [discriminate|].
      intros H. injection H as ->. exists status, text.
      split; [reflexivity|].
      apply andb_false_iff in E. destruct E as [E|E]; [left|right; exact E].
      now apply negb_false_iff in E.
    + intros (status & text & -> & H). cbn.
      assert (E : negb (successOf data) && truthyError (errorOf data)
                  = false).
      { destruct H as [-> | ->]; [reflexivity | apply andb_false_r]. }
      rewrite E. reflexivity.
  - intros status statusText v ->. reflexivity.
  - intros ok status statusText typeError ->. destruct ok; reflexivity.
  - destruct fetched as [m|[|] status text [e|te|d]]; cbn; try reflexivity.
    destruct (negb (successOf d) && truthyError (errorOf d)); reflexivity.
Qed.

Section WithExploration.

Variable E : Type.


Lemma step_parameters (st : State E) (ev : Event E) :
  parameters (step st ev) = parameters st.
Proof.
  destruct ev; cbn [step]; try reflexivity.
  - destruct (fst _); reflexivity.
  - destruct (fst _); reflexivity.
Qed.

Lemma step_results (st : State E) (ev : Event E) :
  results (step st ev) = results st \/
  exists fetched data,
    ev = RunSettled fetched /\
    fst (apiRequest "/simulate" fetched) = Resolved data /\
    results (step st ev) = Some data.
Proof.
  destruct ev as [|f|f|]; cbn [step]; try (left; reflexivity).
  - destruct (fst (apiRequest "/simulate" f)) as [data|m] eqn:Ef.
    + right. exists f, data. auto.
    + left. reflexivity.
  - left. destruct (fst _); reflexivity.
Qed.

(** Over every sequence of clicks and settled requests the parameters stay
    what they were, and the results are what they were or the data of a
    resolved simulation request of that sequence. *)
Theorem app_state_invariants :
  forall (st : State E) (evs : list (Event E)),
    parameters (run st evs) = parameters st /\
    (results (run st evs) = results st \/
     exists fetched data,
       In (RunSettled fetched) evs /\
       fst (apiRequest "/simulate" fetched) = Resolved data /\
       results (run st evs) = Some data).
Proof.
  intros st evs. revert st.
  induction evs as [|ev evs IH]; intros st; [split; [reflexivity | now left]|].
  change (run st (ev :: evs)) with (run (step st ev) evs).
  destruct (IH (step st ev)) as (Hp & Hr). split.
  - rewrite Hp. apply step_parameters.
  - destruct Hr as [Hr|(f & d & Hin & Hf & Hr)].
    + destruct (step_results st ev) as [Hs|(f & d & -> & Hf & Hs)].
      * left. congruence.
      * right. exists f, d. split; [now left|]. split; [exact Hf|]. congruence.
    + right. exists f, d. split; [now right|]. auto.
Qed.

End WithExploration.

End AppFacts.

(* ================================================================== *)
(** * Properties of the parameter panel and of the insights *)
(* ================================================================== *)

Module PanelsFacts.
Import JS Panels.

Lemma lessThan_spec (v : value) (q : Q) :
  lessThan v q = true <-> exists n, v = Num n /\ n < q.
Proof.
  destruct v as [| |n]; cbn; split; try discriminate;
    try (intros (n' & H & _); discriminate H).
  - intros H. exists n. split; [reflexivity|].
    apply negb_true_iff in H. apply Qnot_le_lt. intros Hle.
    apply Qle_bool_iff in Hle. congruence.
  - intros (n' & H & Hlt). injection H as <-. apply negb_true_iff.
    destruct (Qle_bool q n) eqn:E; [|reflexivity].
    apply Qle_bool_iff in E. lra.
Qed.

Lemma greaterThan_spec (v : value) (q : Q) :
  greaterThan v q = true <-> exists n, v = Num n /\ q < n.
Proof.
  destruct v as [| |n]; cbn; split; try discriminate;
    try (intros (n' & H & _); discriminate H).
  - intros H. exists n. split; [reflexivity|].
    apply negb_true_iff in H. apply Qnot_le_lt. intros Hle.
    apply Qle_bool_iff in Hle. congruence.
  - intros (n' & H & Hlt). injection H as <-. apply negb_true_iff.
    destruct (Qle_bool n q) eqn:E; [|reflexivity].
    apply Qle_bool_iff in E. lra.
Qed.

Lemma lessThan_mono (v : value) (p q : Q) :
  p <= q -> lessThan v p = true -> lessThan v q = true.
Proof.
  intros Hpq H. apply lessThan_spec in H. destruct H as (n & -> & Hn).
  apply lessThan_spec. exists n. split; [reflexivity | lra].
Qed.

Lemma less_not_greater (v : value) (p q : Q) :
  p <= q -> lessThan v p = true -> greaterThan v q = false.
Proof.
  intros Hpq H. apply lessThan_spec in H. destruct H as (n & -> & Hn).
  destruct (greaterThan (Num n) q) eqn:E; [|reflexivity].
  apply greaterThan_spec in E. destruct E as (m & Em & Hm).
  injection Em as <-. lra.
Qed.

Lemma greater_not_less (v : value) (p q : Q) :
  p <= q -> greaterThan v q = true -> lessThan v p = false.
Proof.
  intros Hpq H. destruct (lessThan v p) eqn:E; [|reflexivity].
  rewrite (less_not_greater v p q Hpq E) in H. discriminate H.
Qed.

Lemma insights_head (p : ThreeBrain.Params) (e : Effects) :
  exists rest,
    generateInsights p e
    = frequencyInsight (ThreeBrain.frequency p) :: rest.
Proof.
  unfold generateInsights. cbv zeta.
  repeat match goal with
         | |- context [if ?b then _ else _] => destruct b
         end; eexists; reflexivity.
Qed.

Ltac compare_cases :=
  repeat match goal with
         | H : Qle_bool _ _ = true |- _ => apply Qle_bool_iff in H
         | H : Qle_bool ?a ?b = false |- _ =>
             assert (b < a)
               by (apply Qnot_le_lt; intros Hle;
                   apply Qle_bool_iff in Hle; congruence);
             clear H
         end.

(** The words under the frequency slider and the headline of the insights
    agree on low frequencies (both use [< 50]) but not above: every
    frequency the slider calls medium or optimal gets the headline
    "Optimal Frequency Range", the headline "High Frequency Caution" only
    comes with the slider's "Very high", and at exactly 180 Hz, or when
    the frequency is [NaN] or missing, the slider says "Very high
    frequency: Risk of side effects" while the headline says "Optimal
    Frequency Range". *)
Theorem frequency_description_and_insight :
  forall (p : ThreeBrain.Params) (e : Effects),
    let f := ThreeBrain.frequency p in
    let description := getFrequencyDescription f in
    let headline := option_map title (hd_error (generateInsights p e)) in
    (description = "Low frequency: May cause muscle effects"%string
     <-> headline = Some "Low Frequency Warning"%string) /\
    (description = "Medium frequency: Partial therapeutic effect"%string \/
     description = "High frequency: Optimal therapeutic range"%string
     -> headline = Some "Optimal Frequency Range"%string) /\
    (headline = Some "High Frequency Caution"%string
     -> description = "Very high frequency: Risk of side effects"%string) /\
    (f = Num 180 \/ f = NaN \/ f = Undefined ->
     description = "Very high frequency: Risk of side effects"%string /\
     headline = Some "Optimal Frequency Range"%string).
Proof.
  intros p e. cbn zeta.
  destruct (insights_head p e) as (rest & ->). cbn [hd_error option_map].
  generalize (ThreeBrain.frequency p). intros f.
  unfold getFrequencyDescription, frequencyInsight.
  destruct f as [| |n]; cbn [lessThan greaterThan].
  - cbn. repeat split; try discriminate; reflexivity.
  - cbn. repeat split; try discriminate; reflexivity.
  - destruct (Qle_bool 50 n) eqn:E50; destruct (Qle_bool 100 n) eqn:E100;
      destruct (Qle_bool 180 n) eqn:E180; destruct (Qle_bool n 180) eqn:G180;
      cbn [negb title];
      repeat split;
      first
        [ discriminate
        | reflexivity
        | intros _; reflexivity
        | intros [H|H]; discriminate H
        | intros [H|H]; reflexivity
        | intros [H|[H|H]]; try discriminate H; injection H as ->;
          first [ vm_compute in E50, E100, E180, G180; discriminate
                | split; reflexivity ]
        | match goal with
          | H : _ \/ _ \/ _ |- _ =>
              destruct H as [H|[H|H]]; try discriminate H;
              injection H as ->;
              vm_compute in E50, E100, E180, G180; discriminate
          end
        | compare_cases; exfalso; lra ].
Qed.

Lemma hasInsight_push (t : string) (l : list Insight) (b : bool) (i : Insight) :
  hasInsight t (if b then l ++ [i] else l)
  = hasInsight t l || (b && String.eqb (title i) t).
Proof.
  unfold hasInsight. destruct b; cbn [andb].
  - rewrite existsb_app. cbn [existsb]. now rewrite orb_false_r.
  - now rewrite orb_false_r.
Qed.

Lemma length_push (l : list Insight) (b : bool) (i : Insight) :
  List.length (if b then l ++ [i] else l)
  = (List.length l + if b then 1 else 0)%nat.
Proof. destruct b; [rewrite length_app; reflexivity | lia]. Qed.

Lemma hasInsight_frequency (f : value) (t : string) :
  String.eqb "Low Frequency Warning" t = false ->
  String.eqb "High Frequency Caution" t = false ->
  String.eqb "Optimal Frequency Range" t = false ->
  hasInsight t [frequencyInsight f] = false.
Proof.
  intros H1 H2 H3. unfold frequencyInsight, hasInsight.
  destruct (lessThan f 50); [cbn [existsb title]; now rewrite H1|].
  destruct (greaterThan f 180); cbn [existsb title];
    [now rewrite H2 | now rewrite H3].
Qed.

(** [generateInsights] returns between one and five insights.  "Poor
    Therapeutic Window" is among them exactly when the window, read with
    [|| 0], is below 0.3, and "Excellent Therapeutic Window" exactly when
    it is above 0.7; so results without [therapeutic_metrics] are reported
    as a poor window, and results without [efficiency_metrics] never as a
    high power consumption. *)
Theorem insights_shape :
  forall (p : ThreeBrain.Params) (e : Effects),
    let insights := generateInsights p e in
    let window :=
      or_default (match therapeutic_metrics e with
                  | Some m => therapeutic_window m
                  | None => Undefined
                  end) 0 in
    (1 <= List.length insights <= 5)%nat /\
    (hasInsight "Poor Therapeutic Window" insights = true
     <-> window < 0.3) /\
    (hasInsight "Excellent Therapeutic Window" insights = true
     <-> 0.7 < window) /\
    (therapeutic_metrics e = None ->
     hasInsight "Poor Therapeutic Window" insights = true) /\
    (efficiency_metrics e = None ->
     hasInsight "High Power Consumption" insights = false).
Proof.
  intros p e. cbn zeta. unfold generateInsights. cbv zeta.
  set (w := or_default match therapeutic_metrics e with
                       | Some m => therapeutic_window m
                       | None => Undefined
                       end 0).
  set (pw := or_default match efficiency_metrics e with
                        | Some m => power_consumption_mw m
                        | None => Undefined
                        end 0).
  assert (Hw : therapeutic_metrics e = None -> Qle_bool 0.3 w = false).
  { intros H. unfold w. rewrite H. reflexivity. }
  assert (Hpw : efficiency_metrics e = None -> Qle_bool pw 10 = true).
  { intros H. unfold pw. rewrite H. reflexivity. }
  clearbody w pw.
  set (l1 := if greaterThan (ThreeBrain.amplitude p) 5.0 then _ else _).
  set (l2 := if negb (Qle_bool w 0.7) then l1 ++ _
             else if negb (Qle_bool 0.3 w) then _ else l1).
  assert (Hl1 : forall t,
            String.eqb "Low Frequency Warning" t = false ->
            String.eqb "High Frequency Caution" t = false ->
            String.eqb "Optimal Frequency Range" t = false ->
            String.eqb "High Amplitude Risk" t = false ->
            hasInsight t l1 = false).
  { intros t H1 H2 H3 H4. unfold l1. rewrite hasInsight_push.
    rewrite hasInsight_frequency by assumption. cbn [title].
    rewrite H4. now rewrite andb_false_r. }
  assert (Ll1 : (1 <= List.length l1 <= 2)%nat).
  { unfold l1. rewrite length_push. cbn [List.length].
    destruct (greaterThan _ _); lia. }
  assert (Ll2 : (List.length l1 <= List.length l2
                 <= S (List.length l1))%nat).
  { unfold l2. destruct (negb (Qle_bool w 0.7));
      [rewrite length_app; cbn; lia|].
    destruct (negb (Qle_bool 0.3 w)); [rewrite length_app; cbn; lia | lia]. }
  assert (Hl2 : forall t,
            hasInsight t l2
            = hasInsight t l1
              || (negb (Qle_bool w 0.7)
                  && String.eqb "Excellent Therapeutic Window" t)
              || (Qle_bool w 0.7 && negb (Qle_bool 0.3 w)
                  && String.eqb "Poor Therapeutic Window" t)).
  { intros t. unfold l2, hasInsight.
    destruct (Qle_bool w 0.7); cbn [negb andb].
    - destruct (Qle_bool 0.3 w); cbn [negb andb].
      + now rewrite !orb_false_r.
      + rewrite existsb_app. cbn [existsb title].
        now rewrite !orb_false_r.
    - rewrite existsb_app. cbn [existsb title]. now rewrite !orb_false_r. }
  clearbody l1 l2.
  rewrite !hasInsight_push, !length_push, !Hl2. cbn [title].
  rewrite !Hl1 by reflexivity.
  change (String.eqb "Excellent Therapeutic Window" "Poor Therapeutic Window")
    with false.
  change (String.eqb "Poor Therapeutic Window" "Poor Therapeutic Window")
    with true.
  change (String.eqb "Excellent Therapeutic Window"
            "Excellent Therapeutic Window") with true.
  change (String.eqb "Poor Therapeutic Window" "Excellent Therapeutic Window")
    with false.
  change (String.eqb "High Power Consumption" "Poor Therapeutic Window")
    with false.
  change (String.eqb "High Power Consumption" "Excellent Therapeutic Window")
    with false.
  change (String.eqb "High Power Consumption" "High Power Consumption")
    with true.
  change (String.eqb "Parkinson's Disease Optimization"
            "Poor Therapeutic Window") with false.
  change (String.eqb "Parkinson's Disease Optimization"
            "Excellent Therapeutic Window") with false.
  change (String.eqb "Parkinson's Disease Optimization"
            "High Power Consumption") with false.
  change (String.eqb "Excellent Therapeutic Window" "High Power Consumption")
    with false.
  change (String.eqb "Poor Therapeutic Window" "High Power Consumption")
    with false.
  rewrite !andb_false_r, !andb_true_r, !orb_false_r. cbn [orb].
  split.
  { destruct (negb (Qle_bool pw 10)), (String.eqb _ _); lia. }
  split.
  { destruct (Qle_bool w 0.7) eqn:E7; destruct (Qle_bool 0.3 w) eqn:E3;
      cbn; split; intros H; try discriminate H; try reflexivity;
      compare_cases; lra. }
  split.
  { destruct (Qle_bool w 0.7) eqn:E7;
      cbn; split; intros H; try discriminate H; try reflexivity;
      compare_cases; lra. }
  split.
  { intros H. rewrite (Hw H).
    destruct (Qle_bool w 0.7) eqn:E7; [reflexivity|].
    exfalso. specialize (Hw H). compare_cases. lra. }
  { intros H. rewrite (Hpw H). reflexivity. }
Qed.

(** The amplitude warning of the insights only comes with the slider's
    "Very high amplitude", but not the other way round: at exactly 5.0 mA,
    or when the amplitude is [NaN] or missing, the slider says "Very high
    amplitude: High side effect risk" and the insights carry no amplitude
    warning. *)
Theorem amplitude_description_and_insight :
  forall (p : ThreeBrain.Params) (e : Effects),
    let a := ThreeBrain.amplitude p in
    let description := getAmplitudeDescription a in
    let warned := hasInsight "High Amplitude Risk" (generateInsights p e) in
    (warned = true <-> greaterThan a 5.0 = true) /\
    (warned = true ->
     description = "Very high amplitude: High side effect risk"%string) /\
    (a = Num 5.0 \/ a = NaN \/ a = Undefined ->
     description = "Very high amplitude: High side effect risk"%string /\
     warned = false).
Proof.
  intros p e. cbn zeta.
  assert (Hw : hasInsight "High Amplitude Risk" (generateInsights p e)
               = greaterThan (ThreeBrain.amplitude p) 5.0).
  { unfold generateInsights. cbv zeta.
    set (l1 := if greaterThan (ThreeBrain.amplitude p) 5.0 then _ else _).
    set (l2 := if negb (Qle_bool _ 0.7) then l1 ++ _
               else if negb (Qle_bool 0.3 _) then _ else l1).
    assert (H1 : hasInsight "High Amplitude Risk" l1
                 = greaterThan (ThreeBrain.amplitude p) 5.0).
    { unfold l1. rewrite hasInsight_push.
      rewrite hasInsight_frequency by reflexivity. cbn [title].
      change (String.eqb "High Amplitude Risk" "High Amplitude Risk")
        with true.
      now rewrite andb_true_r. }
    assert (H2 : hasInsight "High Amplitude Risk" l2
                 = hasInsight "High Amplitude Risk" l1).
    { unfold l2, hasInsight.
      destruct (negb (Qle_bool _ 0.7));
        [rewrite existsb_app; cbn [existsb title];
         change (String.eqb "Excellent Therapeutic Window"
                   "High Amplitude Risk") with false;
         now rewrite !orb_false_r|].
      destruct (negb (Qle_bool 0.3 _)); [|reflexivity].
      rewrite existsb_app. cbn [existsb title].
      change (String.eqb "Poor Therapeutic Window" "High Amplitude Risk")
        with false.
      now rewrite !orb_false_r. }
    clearbody l1 l2. rewrite !hasInsight_push, H2, H1. cbn [title].
    change (String.eqb "High Power Consumption" "High Amplitude Risk")
      with false.
    change (String.eqb "Parkinson's Disease Optimization"
              "High Amplitude Risk") with false.
    now rewrite !andb_false_r, !orb_false_r. }
  rewrite Hw. generalize (ThreeBrain.amplitude p). intros a.
  split; [tauto|]. unfold getAmplitudeDescription. split.
  - intros H.
    rewrite (greater_not_less a 1.0 5.0) by (try lra; exact H).
    rewrite (greater_not_less a 3.0 5.0) by (try lra; exact H).
    rewrite (greater_not_less a 5.0 5.0) by (try lra; exact H).
    reflexivity.
  - intros [-> | [-> | ->]]; split; reflexivity.
Qed.

End PanelsFacts.

(* ================================================================== *)
(** * Properties of the tutorial *)
(* ================================================================== *)

Module TutorialFacts.
Import Tutorial.

Lemma nextStep_in_range (st : State) :
  (currentStep st <= 10)%nat ->
  exists st' calls,
    nextStep st = Some (st', calls) /\
    (currentStep st' <= 10)%nat /\
    (currentStep st < 10 -> currentStep st' = S (currentStep st))%nat /\
    (currentStep st = 10 -> currentStep st' = 10)%nat /\
    (List.length calls <= 1)%nat.
Proof.
  intros H. destruct st as [n r]. cbn [currentStep] in *.
  do 11 (destruct n as [|n];
         [cbn; do 2 eexists; split; [reflexivity|]; cbn; repeat split; lia|]).
  exfalso. lia.
Qed.

Lemma press_in_range (st : State) (b : Button) :
  (currentStep st <= 10)%nat ->
  exists st', press (Some st) b = Some st' /\ (currentStep st' <= 10)%nat.
Proof.
  intros H. destruct b; cbn [press].
  - destruct (nextEnabled st); [|eauto].
    destruct (nextStep_in_range st H) as (st' & calls & E & H' & _).
    rewrite E. cbn. eauto.
  - eexists. split; [reflexivity|]. unfold prevStep.
    destruct (0 <? currentStep st)%nat; cbn; lia.
Qed.


Lemma advance_stuck (st : State) (s : Step) :
  isSimulationRunning st = true -> noResults s = true ->
  exists st', advance (Some st) s = Some st' /\
              isSimulationRunning st' = true /\
              (currentStep st' <= currentStep st)%nat.
Proof.
  intros Hr Hs. destruct s as [b|hr ir]; cbn [advance].
  - destruct b; cbn [press].
    + unfold nextEnabled. rewrite Hr. cbn. eauto.
    + eexists. split; [reflexivity|]. unfold prevStep.
      destruct (0 <? currentStep st)%nat; cbn; split; auto; lia.
  - cbn in Hs. apply negb_true_iff in Hs. subst hr.
    cbn. unfold simulationEffect. rewrite Hr. cbn. eauto.
Qed.

(** Once the tutorial has started its simulation, it cannot go forward
    until a render sees results: while [simulationState.results] stays
    empty (the request failed, or is still running), the flag stays set,
    the Next button stays disabled, and presses only move backwards. *)
Theorem tutorial_waits_for_results :
  forall (st : State) (steps : list Step),
    isSimulationRunning st = true ->
    forallb noResults steps = true ->
    exists st' : State,
      fold_left advance steps (Some st) = Some st' /\
      isSimulationRunning st' = true /\
      nextEnabled st' = false /\
      (currentStep st' <= currentStep st)%nat.
Proof.
  intros st steps. revert st.
  induction steps as [|s steps IH]; intros st Hr Hs.
  - exists st. unfold nextEnabled. rewrite Hr. cbn. auto.
  - cbn [forallb] in Hs. apply andb_true_iff in Hs. destruct Hs as [H1 H2].
    destruct (advance_stuck st s Hr H1) as (st1 & E1 & R1 & L1).
    cbn [fold_left]. rewrite E1.
    destruct (IH st1 R1 H2) as (st' & E & R & N & L).
    exists st'. repeat split; auto. lia.
Qed.

(** A render with results and no run in flight frees it. *)
Lemma results_free_the_tutorial (st : State) :
  isSimulationRunning (simulationEffect true false st) = false.
Proof.
  unfold simulationEffect. destruct (isSimulationRunning st) eqn:E; cbn;
    [reflexivity | exact E].
Qed.

Lemma tutorial_waits_for_results_witness :
  let st := mkState 6 true in
  let steps := [Render false true; Press Next; Render false false;
                Press Previous; Press Next] in
  (isSimulationRunning st = true /\ forallb noResults steps = true) /\
  exists st' : State,
    fold_left advance steps (Some st) = Some st' /\
    isSimulationRunning st' = true /\
    nextEnabled st' = false /\
    (currentStep st' <= 6)%nat.
Proof.
  intros st steps.
  assert (Hr : isSimulationRunning st = true) by reflexivity.
  assert (Hs : forallb noResults steps = true) by reflexivity.
  split; [split; assumption|].
  exact (tutorial_waits_for_results st steps Hr Hs).
Defined.

End TutorialFacts.
